(** * cashflow: the revenue aggregation core of [StripeService]

    A shallow embedding of [src/services/stripeService.ts]
    ([groupChargesByPeriod], [generateInsights], [analyzeRevenueTrends],
    [getPaymentHistory], [issueRefund], [currentDatetime]) together with the
    parts of the JavaScript runtime the service relies on ([Date], [Number],
    [Array.prototype.sort], [Map]).

    - JavaScript dates are modelled after ECMA-262 (time values are
      milliseconds since the epoch, [None] is the invalid date).
    - JavaScript numbers are an interface ([Number]) with the instance
      [Binary64]: IEEE 754 doubles, the arithmetic Node.js performs.
    - The Stripe API is an oracle answering the requests of the service; the
      pagination loop is bounded by fuel. *)

From Stdlib Require Import ZArith List String Ascii Bool Lia Permutation Sorted.
From Stdlib Require Import QArith Qround Qabs.
From Stdlib Require Import PrimFloat FloatOps SpecFloat.
From Stdlib Require DecimalString DecimalPos.
Import ListNotations.

Local Open Scope string_scope.
Local Open Scope list_scope.
Local Open Scope Z_scope.

(** String concatenation, JavaScript's [+] on strings. *)
Local Infix "+++" := String.append (right associativity, at level 60).

(** ** Strings of integers *)

Module JSString.

(** [String(n)] / template-literal rendering of an integer-valued number. *)
Definition ofZ (z : Z) : string :=
  match z with
  | Z0 => "0"
  | Zpos p => DecimalString.NilZero.string_of_uint (Pos.to_uint p)
  | Zneg p => "-" +++ DecimalString.NilZero.string_of_uint (Pos.to_uint p)
  end.

(** [s.padStart(n, "0")]. *)
Definition padStart0 (n : nat) (s : string) : string :=
  let fix zeros (k : nat) : string :=
    match k with
    | O => EmptyString
    | S k' => "0" +++ zeros k'
    end in
  zeros (n - String.length s)%nat +++ s.

End JSString.

(** ** Dates (ECMA-262, section "Date Objects") *)

Module JSDate.

Definition msPerDay : Z := 86400000.

Definition Day (t : Z) : Z := t / msPerDay.
Definition TimeWithinDay (t : Z) : Z := t mod msPerDay.

Definition DaysInYear (y : Z) : Z :=
  if negb (y mod 4 =? 0) then 365
  else if negb (y mod 100 =? 0) then 366
  else if negb (y mod 400 =? 0) then 365
  else 366.

Definition DayFromYear (y : Z) : Z :=
  365 * (y - 1970) + (y - 1969) / 4 - (y - 1901) / 100 + (y - 1601) / 400.

(** The largest [y] with [DayFromYear y <= d]: one estimate from the mean
    length of the Gregorian year, corrected by at most one year. *)
Definition YearFromDay (d : Z) : Z :=
  let y := 1970 + (400 * d) / 146097 in
  if DayFromYear (y + 1) <=? d then y + 1
  else if d <? DayFromYear y then y - 1
  else y.

Definition YearFromTime (t : Z) : Z := YearFromDay (Day t).

Definition InLeapYear (t : Z) : Z :=
  if DaysInYear (YearFromTime t) =? 366 then 1 else 0.

Definition DayWithinYear (t : Z) : Z := Day t - DayFromYear (YearFromTime t).

(** Months are 0-based, as [getMonth] returns them. *)
Definition MonthFromTime (t : Z) : Z :=
  let d := DayWithinYear t in
  let leap := InLeapYear t in
  if d <? 31 then 0
  else if d <? 59 + leap then 1
  else if d <? 90 + leap then 2
  else if d <? 120 + leap then 3
  else if d <? 151 + leap then 4
  else if d <? 181 + leap then 5
  else if d <? 212 + leap then 6
  else if d <? 243 + leap then 7
  else if d <? 273 + leap then 8
  else if d <? 304 + leap then 9
  else if d <? 334 + leap then 10
  else 11.

(** Day of the year on which month [m] (0-based) starts. *)
Definition monthStart (m leap : Z) : Z :=
  match m with
  | 0 => 0
  | 1 => 31
  | 2 => 59 + leap
  | 3 => 90 + leap
  | 4 => 120 + leap
  | 5 => 151 + leap
  | 6 => 181 + leap
  | 7 => 212 + leap
  | 8 => 243 + leap
  | 9 => 273 + leap
  | 10 => 304 + leap
  | _ => 334 + leap
  end.

Definition DateFromTime (t : Z) : Z :=
  DayWithinYear t - monthStart (MonthFromTime t) (InLeapYear t) + 1.

(** Sunday = 0. *)
Definition WeekDay (t : Z) : Z := (Day t + 4) mod 7.

Definition MakeDay (year month date : Z) : Z :=
  let ym := year + month / 12 in
  let mn := month mod 12 in
  let leap := if DaysInYear ym =? 366 then 1 else 0 in
  DayFromYear ym + monthStart mn leap + date - 1.

Definition MakeDate (day time : Z) : Z := day * msPerDay + time.

(** [None] is the time value NaN. *)
Definition TimeClip (time : Z) : option Z :=
  if Z.abs time >? 8640000000000000 then None else Some time.

(** A [Date] object: its time value, [None] for an invalid date. *)
Definition Date : Type := option Z.

(** [new Date(value)] for an integral number of milliseconds. *)
Definition ofNumber (ms : Z) : Date := TimeClip ms.

Section Local.

(** [LocalTZA t isUTC]: the offset of the host's time zone in
    milliseconds, as in ECMA-262. *)
Variable LocalTZA : Z -> bool -> Z.

Definition LocalTime (t : Z) : Z := t + LocalTZA t true.
Definition UTC (t : Z) : Z := t - LocalTZA t false.

(** Local-time getters; [None] stands for NaN. *)
Definition getFullYear (d : Date) : option Z :=
  option_map (fun t => YearFromTime (LocalTime t)) d.
Definition getMonth (d : Date) : option Z :=
  option_map (fun t => MonthFromTime (LocalTime t)) d.
Definition getDate (d : Date) : option Z :=
  option_map (fun t => DateFromTime (LocalTime t)) d.
Definition getDay (d : Date) : option Z :=
  option_map (fun t => WeekDay (LocalTime t)) d.

(** [d.setDate(dt)]: the new time value of [d]; a NaN argument or an
    invalid date gives the invalid date. *)
Definition setDate (d : Date) (dt : option Z) : Date :=
  match d, dt with
  | Some tv, Some dt =>
      let t := LocalTime tv in
      let newDate :=
        MakeDate (MakeDay (YearFromTime t) (MonthFromTime t) dt)
                 (TimeWithinDay t) in
      TimeClip (UTC newDate)
  | _, _ => None
  end.

End Local.

(** The year of [toISOString]: four digits, or a sign and six digits
    outside 0..9999. *)
Definition isoYear (y : Z) : string :=
  if (0 <=? y) && (y <=? 9999) then JSString.padStart0 4 (JSString.ofZ y)
  else (if y <? 0 then "-" else "+")
       +++ JSString.padStart0 6 (JSString.ofZ (Z.abs y)).

(** [d.toISOString().split("T")[0]]: the UTC calendar date;
    [toISOString] throws a RangeError on an invalid date ([None]). *)
Definition toISODate (d : Date) : option string :=
  match d with
  | None => None
  | Some t =>
      Some (isoYear (YearFromTime t) +++ "-"
            +++ JSString.padStart0 2 (JSString.ofZ (MonthFromTime t + 1)) +++ "-"
            +++ JSString.padStart0 2 (JSString.ofZ (DateFromTime t)))
  end.

End JSDate.

(** ** Numbers

    The operations of JavaScript's [number] that the service uses.  The
    service is written once over this interface; [Binary64] interprets it in
    IEEE 754 double precision. *)

Class Number (num : Type) : Type := {
  (** the number denoted by an integer (a literal, a count, an amount) *)
  ofZ : Z -> num;
  num_add : num -> num -> num;
  num_sub : num -> num -> num;
  num_mul : num -> num -> num;
  num_div : num -> num -> num;
  (** [Math.round]: the nearest integer, ties towards +infinity *)
  Math_round : num -> num;
  (** how a sort comparator's result is read: [Lt] negative, [Gt] positive,
      [Eq] zero (NaN is read as zero) *)
  num_sign : num -> comparison;
  (** [x.toFixed(2)] *)
  toFixed2 : num -> string
}.

Declare Scope num_scope.
Delimit Scope num_scope with num.
Infix "+" := num_add : num_scope.
Infix "-" := num_sub : num_scope.
Infix "*" := num_mul : num_scope.
Infix "/" := num_div : num_scope.

Module JSNumber.

(** *** Rendering *)

(** The digits of [n / 100] with two decimals, for [0 <= n]. *)
Definition fixed2 (n : Z) : string :=
  JSString.ofZ (n / 100) +++ "." +++ JSString.padStart0 2 (JSString.ofZ (n mod 100)).

(** Removes the trailing zeros of a digit string (keeping one digit). *)
Fixpoint stripZeros (s : string) : string :=
  match s with
  | EmptyString => EmptyString
  | String c rest =>
      match stripZeros rest with
      | EmptyString => if (c =? "0")%char then EmptyString else String c EmptyString
      | r => String c r
      end
  end.

(** Exponential notation of the positive integer [v] (at least 10^21):
    its significant digits [d.ddd] and the exponent [e+N]. *)
Definition exponential (v : Z) : string :=
  let ds := JSString.ofZ v in
  let n := Z.of_nat (String.length ds) in
  match ds with
  | EmptyString => EmptyString
  | String c rest =>
      let frac := stripZeros rest in
      String c (match frac with EmptyString => EmptyString | _ => "." +++ frac end)
      +++ "e+" +++ JSString.ofZ (n - 1)
  end.

(** *** IEEE 754 double precision *)

Definition prec : Z := 53.
Definition emax : Z := 1024.

(** The double nearest to [m * 2^e] (ties to even). *)
Definition ofDyadic (m e : Z) : float := SF2Prim (binary_normalize prec emax m e false).

(** The double nearest to the non-negative rational [n / d]: the quotient
    is taken with 64 extra bits and a sticky bit, then rounded once. *)
Definition ofRatio (n : Z) (d : positive) : float :=
  let k := Z.log2 (Zpos d) + 64 in
  let q := (n * 2 ^ k) / Zpos d in
  let sticky := if (n * 2 ^ k) mod Zpos d =? 0 then 0 else 1 in
  ofDyadic (Z.lor (2 * q) sticky) (- k - 1).

(** [Number::toString] of a double whose value is the integer [x], at
    least 10^21: the fewest significant digits that read back as the same
    double, the candidate closest to [x] when two do. *)
Definition shortest (x : Z) : Z :=
  let n := Z.of_nat (String.length (JSString.ofZ x)) in
  let reads_back v := PrimFloat.eqb (ofDyadic v 0) (ofDyadic x 0) in
  let fix search (fuel : nat) (k : Z) : Z :=
    match fuel with
    | O => x
    | S fuel' =>
        let p := 10 ^ (n - k) in
        let lo := (x / p) * p in
        let hi := lo + p in
        match reads_back lo, reads_back hi with
        | true, true => if x - lo <=? hi - x then lo else hi
        | true, false => lo
        | false, true => hi
        | false, false => search fuel' (k + 1)
        end
    end in
  search 17%nat 1.

Definition toStringBig (x : Z) : string := exponential (shortest x).

(** [toFixed(2)] of the finite value [sign * a] with [0 <= a]; at 10^21
    and above [toFixed] falls back on [ToString], given by [big]. *)
Definition toFixed2_abs (neg : bool) (a : Q) (big : unit -> string) : string :=
  (if neg then "-" else EmptyString)
  +++ (if Qle_bool (inject_Z (10 ^ 21)) a then big tt
       else fixed2 (Qfloor (a * inject_Z 100 + (1 # 2))%Q)).

End JSNumber.

(** *** Double precision *)

Module Binary64.

(** The double nearest to an integer. *)
Definition ofZ (z : Z) : float := JSNumber.ofDyadic z 0.

(** [Math.round]: a double with a non-negative exponent is an integer
    already; otherwise the value [v * 2^e] is rounded as
    [floor (v * 2^e + 1/2)], keeping the sign of a zero result. *)
Definition round (x : float) : float :=
  match Prim2SF x with
  | S754_finite s m e =>
      if 0 <=? e then x
      else
        let v := if s then Zneg m else Zpos m in
        let r := (2 * v + 2 ^ (- e)) / 2 ^ (1 - e) in
        if r =? 0 then (if s then neg_zero else zero) else ofZ r
  | _ => x
  end.

(** The sign of a comparator's result; NaN compares with nothing and is
    read as zero. *)
Definition sign (x : float) : comparison :=
  match PrimFloat.compare x zero with
  | FLt => Lt
  | FGt => Gt
  | FEq | FNotComparable => Eq
  end.

(** [x.toFixed(2)]: the exact value of the double, rounded half up to two
    decimals. *)
Definition toFixed2 (x : float) : string :=
  match Prim2SF x with
  | S754_nan => "NaN"
  | S754_infinity s => if s then "-Infinity" else "Infinity"
  | S754_zero _ => "0.00"
  | S754_finite s m e =>
      JSNumber.toFixed2_abs s
        (if 0 <=? e then inject_Z (Zpos m * 2 ^ e)
         else Qmake (Zpos m) (Z.to_pos (2 ^ (- e))))
        (fun _ => JSNumber.toStringBig (Zpos m * 2 ^ e))
  end.

#[global] Instance number : Number float := {
  ofZ := ofZ;
  num_add := PrimFloat.add;
  num_sub := PrimFloat.sub;
  num_mul := PrimFloat.mul;
  num_div := PrimFloat.div;
  Math_round := round;
  num_sign := sign;
  toFixed2 := toFixed2
}.

End Binary64.

(** Well-known values of double precision. *)
Example number_facts :
  toFixed2 (ofZ 1005 / ofZ 1000 : float)%num = "1.00"
  /\ toFixed2 (Math_round (ofZ (-25) / ofZ 10) : float)%num = "-2.00"
  /\ toFixed2 (Math_round (ofZ 25 / ofZ 10) : float)%num = "3.00"
  /\ toFixed2 (ofZ (-1) / ofZ 1000 : float)%num = "-0.00"
  /\ toFixed2 (ofZ (10 ^ 21) : float) = "1e+21"
  /\ toFixed2 (ofZ (2 ^ 70) : float) = "1.1805916207174113e+21"
  /\ toFixed2 (ofZ 1 / ofZ 0 : float)%num = "Infinity"
  /\ toFixed2 (ofZ 0 / ofZ 0 : float)%num = "NaN".
Proof. repeat apply conj; vm_compute; reflexivity. Qed.

(** ** Exceptions *)

(** What a [catch (error)] clause can receive: an [Error] object with its
    message, or any other thrown value. *)
Inductive Thrown : Type :=
| ErrorObject (message : string)
| OtherValue.

(** A computation that returns a value or throws. *)
Definition Result (A : Type) : Type := (Thrown + A)%type.

Definition ret {A : Type} (a : A) : Result A := inr a.
Definition throw {A : Type} (e : Thrown) : Result A := inl e.
Definition bind {A B : Type} (m : Result A) (k : A -> Result B) : Result B :=
  match m with
  | inl e => inl e
  | inr a => k a
  end.

Notation "'let*' x ':=' m 'in' k" := (bind m (fun x => k))
  (at level 10, x name, m at level 100, k at level 200).

(** The RangeError of [toISOString] on an invalid date (V8's message). *)
Definition invalidTimeValue : Thrown := ErrorObject "Invalid time value".

(** The TypeError of a property read on [undefined]. *)
Definition undefinedProperty : Thrown :=
  ErrorObject "Cannot read properties of undefined".

(** ** Arrays and maps *)

Module JSArray.

Section Sort.
Context {A : Type}.
(** The comparator, read by its sign: [Gt] when the first argument sorts
    after the second. *)
Variable comparefn : A -> A -> comparison.

Fixpoint insert (x : A) (l : list A) : list A :=
  match l with
  | [] => [x]
  | y :: l' =>
      match comparefn x y with
      | Gt => y :: insert x l'
      | _ => x :: y :: l'
      end
  end.

(** [Array.prototype.sort]: a stable sort (ECMAScript 2019); elements
    that compare equal keep their input order.  (For a comparator that is
    not a consistent order the engine is free in its result; the model then
    is the insertion sort below.) *)
Fixpoint sort (l : list A) : list A :=
  match l with
  | [] => []
  | x :: l' => insert x (sort l')
  end.
End Sort.

(** [a[a.length - 1]], [None] for [undefined]. *)
Fixpoint last {A : Type} (l : list A) : option A :=
  match l with
  | [] => None
  | [x] => Some x
  | _ :: l' => last l'
  end.

End JSArray.

(** A [Map] with string keys: its entries in insertion order. *)
Module JSMap.

Section Map.
Context {V : Type}.

Definition t : Type := list (string * V).

Fixpoint get (k : string) (m : t) : option V :=
  match m with
  | [] => None
  | (k', v) :: m' => if String.eqb k k' then Some v else get k m'
  end.

(** An existing key keeps its position, a new key is appended. *)
Fixpoint set (k : string) (v : V) (m : t) : t :=
  match m with
  | [] => [(k, v)]
  | (k', v') :: m' =>
      if String.eqb k k' then (k, v) :: m' else (k', v') :: set k v m'
  end.

(** [Array.from(m.entries())]. *)
Definition entries (m : t) : list (string * V) := m.
End Map.

Arguments t : clear implicits.

End JSMap.

(** ** The Stripe API, as the service sees it *)

Module Charge.
Record t : Type := {
  id : string;
  amount : Z;      (** minor units *)
  created : Z;     (** seconds since the epoch *)
  status : string
}.
End Charge.

Module ApiList.
Record t : Type := {
  data : list Charge.t;
  has_more : bool
}.
End ApiList.

Module ChargeListParams.
(** [created: { gte, lte }], [limit], [starting_after]; a timestamp of
    [None] is NaN, a cursor of [None] is [undefined]. *)
Record t : Type := {
  gte : option Z;
  lte : option Z;
  limit : Z;
  starting_after : option string
}.
End ChargeListParams.

Module Refund.
Record t : Type := { amount : Z }.
End Refund.

Module RefundCreateParams.
Record t (num : Type) : Type := {
  payment_intent : string;
  amount : num
}.
Arguments payment_intent {num}.
Arguments amount {num}.
End RefundCreateParams.

(** ** The service's own records *)

Inductive GroupBy : Type := day | week | month.

Module Bucket.
(** The value type of the [grouped] map. *)
Record t (num : Type) : Type := { revenue : num; count : Z }.
Arguments revenue {num}.
Arguments count {num}.
End Bucket.

Module PeriodDatum.
Record t (num : Type) : Type := {
  period : string;
  revenue : num;
  transactionCount : Z
}.
Arguments period {num}.
Arguments revenue {num}.
Arguments transactionCount {num}.
End PeriodDatum.

Module Summary.
Record t (num : Type) : Type := {
  totalRevenue : num;
  transactionCount : Z;
  averageTransaction : num
}.
Arguments totalRevenue {num}.
Arguments transactionCount {num}.
Arguments averageTransaction {num}.
End Summary.

Module RevenueTrends.
(** The payload of [analyzeRevenueTrends]; [error] is optional. *)
Record t (num : Type) : Type := {
  summary : Summary.t num;
  periodData : list (PeriodDatum.t num);
  insights : list string;
  error : option string
}.
Arguments summary {num}.
Arguments periodData {num}.
Arguments insights {num}.
Arguments error {num}.

Record args : Type := {
  startDate : string;
  endDate : string;
  groupBy : GroupBy
}.
End RevenueTrends.

Module RefundResult.
Record t (num : Type) : Type := {
  status : string;
  amountRefunded : num;
  error : option string
}.
Arguments status {num}.
Arguments amountRefunded {num}.
Arguments error {num}.

Record args (num : Type) : Type := {
  paymentIntentId : string;
  amount : num
}.
Arguments paymentIntentId {num}.
Arguments amount {num}.
End RefundResult.

(** ** [StripeService] *)

Section StripeService.

Context {num : Type} `{Number num}.

(** The host: its time zone, its collation, its date parser. *)
Variable LocalTZA : Z -> bool -> Z.
Variable localeCompare : string -> string -> comparison.
(** [new Date(s).getTime()], [None] for NaN. *)
Variable Date_parse : string -> option Z.

(** The Stripe client.  [charges_list n params] is the answer to the
    request [params] when [n] requests have been answered before it. *)
Variable charges_list : nat -> ChargeListParams.t -> Result ApiList.t.
Variable refunds_create : RefundCreateParams.t num -> Result Refund.t.

(** [x - y + 1] on numbers that may be NaN. *)
Definition mondayOffset (date dayOfWeek : option Z) : option Z :=
  match date, dayOfWeek with
  | Some d, Some w => Some (d - w + 1)
  | _, _ => None
  end.

(** The [switch (groupBy)] of [groupChargesByPeriod]. *)
Definition periodKey (groupBy : GroupBy) (charge : Charge.t) : Result string :=
  let date := JSDate.ofNumber (Charge.created charge * 1000) in
  match groupBy with
  | day =>
      match JSDate.toISODate date with
      | Some s => ret s
      | None => throw invalidTimeValue
      end
  | week =>
      let weekStart := date in
      let weekStart :=
        JSDate.setDate LocalTZA weekStart
          (mondayOffset (JSDate.getDate LocalTZA date)
                        (JSDate.getDay LocalTZA date)) in
      match JSDate.toISODate weekStart with
      | Some s => ret s
      | None => throw invalidTimeValue
      end
  | month =>
      match JSDate.getFullYear LocalTZA date, JSDate.getMonth LocalTZA date with
      | Some y, Some m =>
          ret (JSString.ofZ y +++ "-" +++ JSString.padStart0 2 (JSString.ofZ (m + 1)))
      | _, _ => ret "NaN-NaN"
      end
  end.

(** The body of [charges.forEach]. *)
Definition addCharge (groupBy : GroupBy)
    (grouped : JSMap.t (Bucket.t num)) (charge : Charge.t)
  : Result (JSMap.t (Bucket.t num)) :=
  let* periodKey := periodKey groupBy charge in
  let existing :=
    match JSMap.get periodKey grouped with
    | Some b => b
    | None => {| Bucket.revenue := ofZ 0; Bucket.count := 0 |}
    end in
  ret (JSMap.set periodKey
         {| Bucket.revenue :=
              (Bucket.revenue existing + ofZ (Charge.amount charge) / ofZ 100)%num;
            Bucket.count := Bucket.count existing + 1 |}
         grouped).

Fixpoint forEachCharge (groupBy : GroupBy) (charges : list Charge.t)
    (grouped : JSMap.t (Bucket.t num)) : Result (JSMap.t (Bucket.t num)) :=
  match charges with
  | [] => ret grouped
  | charge :: rest =>
      let* grouped := addCharge groupBy grouped charge in
      forEachCharge groupBy rest grouped
  end.

Definition toPeriodDatum (entry : string * Bucket.t num) : PeriodDatum.t num :=
  let (period, data) := entry in
  {| PeriodDatum.period := period;
     PeriodDatum.revenue := (Math_round (Bucket.revenue data * ofZ 100) / ofZ 100)%num;
     PeriodDatum.transactionCount := Bucket.count data |}.

Definition groupChargesByPeriod (charges : list Charge.t) (groupBy : GroupBy)
  : Result (list (PeriodDatum.t num)) :=
  let* grouped := forEachCharge groupBy charges [] in
  ret (JSArray.sort
         (fun a b => localeCompare (PeriodDatum.period a) (PeriodDatum.period b))
         (map toPeriodDatum (JSMap.entries grouped))).

(** [insights.push(line)]. *)
Definition push (insights : list string) (line : string) : list string :=
  insights ++ [line].

Definition generateInsights (periodData : list (PeriodDatum.t num))
    (totalRevenue : num) : Result (list string) :=
  let insights : list string := [] in
  let* insights :=
    if (0 <? Z.of_nat (List.length periodData)) then
      let sortedByRevenue :=
        JSArray.sort
          (fun a b => num_sign (PeriodDatum.revenue b - PeriodDatum.revenue a)%num)
          periodData in
      match hd_error sortedByRevenue, JSArray.last sortedByRevenue with
      | Some best, Some worst =>
          let insights :=
            push insights
              ("Highest revenue period: " +++ PeriodDatum.period best
               +++ " with $" +++ toFixed2 (PeriodDatum.revenue best)) in
          if 1 <? Z.of_nat (List.length periodData) then
            ret (push insights
                   ("Lowest revenue period: " +++ PeriodDatum.period worst
                    +++ " with $" +++ toFixed2 (PeriodDatum.revenue worst)))
          else ret insights
      | _, _ => throw undefinedProperty
      end
    else ret insights in
  let avgPerPeriod :=
    if 0 <? Z.of_nat (List.length periodData)
    then (totalRevenue / ofZ (Z.of_nat (List.length periodData)))%num
    else ofZ 0 in
  let insights :=
    push insights ("Average revenue per period: $" +++ toFixed2 avgPerPeriod) in
  let totalTransactions :=
    fold_left (fun sum p => sum + PeriodDatum.transactionCount p) periodData 0 in
  if 0 <? totalTransactions then
    ret (push insights
           ("Processed " +++ JSString.ofZ totalTransactions
            +++ " successful transactions during this period."))
  else ret insights.

(** The [while (hasMore)] loop of [analyzeRevenueTrends]; [calls] counts
    the requests made so far.  [None]: the loop is still running when the
    fuel is spent. *)
Fixpoint fetchCharges (fuel : nat) (startTimestamp endTimestamp : option Z)
    (calls : nat) (charges : list Charge.t) (startingAfter : option string)
  : option (Result (list Charge.t)) :=
  match fuel with
  | O => None
  | S fuel' =>
      match charges_list calls
              {| ChargeListParams.gte := startTimestamp;
                 ChargeListParams.lte := endTimestamp;
                 ChargeListParams.limit := 100;
                 ChargeListParams.starting_after := startingAfter |} with
      | inl e => Some (throw e)
      | inr response =>
          let successfulCharges :=
            filter (fun charge => String.eqb (Charge.status charge) "succeeded")
                   (ApiList.data response) in
          let charges := charges ++ successfulCharges in
          let hasMore := ApiList.has_more response in
          let startingAfter :=
            match hasMore, JSArray.last (ApiList.data response) with
            | true, Some c => Some (Charge.id c)
            | _, _ => startingAfter
            end in
          if hasMore
          then fetchCharges fuel' startTimestamp endTimestamp (S calls) charges startingAfter
          else Some (ret charges)
      end
  end.

(** The statements of the [try] block after the loop. *)
Definition summarize (charges : list Charge.t) (groupBy : GroupBy)
  : Result (RevenueTrends.t num) :=
  let totalRevenue :=
    (fold_left (fun sum charge => sum + ofZ (Charge.amount charge)) charges (ofZ 0)
     / ofZ 100)%num in
  let transactionCount := Z.of_nat (List.length charges) in
  let averageTransaction :=
    if 0 <? transactionCount
    then (totalRevenue / ofZ transactionCount)%num
    else ofZ 0 in
  let* groupedData := groupChargesByPeriod charges groupBy in
  let* insights := generateInsights groupedData totalRevenue in
  ret {| RevenueTrends.summary :=
           {| Summary.totalRevenue := totalRevenue;
              Summary.transactionCount := transactionCount;
              Summary.averageTransaction :=
                (Math_round (averageTransaction * ofZ 100) / ofZ 100)%num |};
         RevenueTrends.periodData := groupedData;
         RevenueTrends.insights := insights;
         RevenueTrends.error := None |}.

(** [error instanceof Error ? error.message : "Unknown error"]. *)
Definition errorMessage (error : Thrown) : string :=
  match error with
  | ErrorObject message => message
  | OtherValue => "Unknown error"
  end.

(** The [catch] block of [analyzeRevenueTrends]. *)
Definition revenueTrendsFailure (error : Thrown) : RevenueTrends.t num :=
  {| RevenueTrends.summary :=
       {| Summary.totalRevenue := ofZ 0;
          Summary.transactionCount := 0;
          Summary.averageTransaction := ofZ 0 |};
     RevenueTrends.periodData := [];
     RevenueTrends.insights := [];
     RevenueTrends.error :=
       Some ("Failed to analyze revenue trends: " +++ errorMessage error) |}.

(** [Math.floor(new Date(s).getTime() / 1000)]. *)
Definition toTimestamp (s : string) : option Z :=
  option_map (fun ms => ms / 1000) (Date_parse s).

Definition analyzeRevenueTrends (fuel : nat) (args : RevenueTrends.args)
  : option (RevenueTrends.t num) :=
  let startTimestamp := toTimestamp (RevenueTrends.startDate args) in
  let endTimestamp := toTimestamp (RevenueTrends.endDate args) in
  match fetchCharges fuel startTimestamp endTimestamp 0 [] None with
  | None => None
  | Some fetched =>
      match (let* charges := fetched in
             summarize charges (RevenueTrends.groupBy args)) with
      | inr payload => Some payload
      | inl error => Some (revenueTrendsFailure error)
      end
  end.

Definition issueRefund (args : RefundResult.args num) : RefundResult.t num :=
  let paymentIntentId := RefundResult.paymentIntentId args in
  let amount := RefundResult.amount args in
  match refunds_create
          {| RefundCreateParams.payment_intent := paymentIntentId;
             RefundCreateParams.amount := Math_round (amount * ofZ 100)%num |} with
  | inr refund =>
      {| RefundResult.status := "success";
         RefundResult.amountRefunded := (ofZ (Refund.amount refund) / ofZ 100)%num;
         RefundResult.error := None |}
  | inl error =>
      {| RefundResult.status := "error";
         RefundResult.amountRefunded := ofZ 0;
         RefundResult.error :=
           Some ("Failed to issue refund: " +++ errorMessage error) |}
  end.

End StripeService.

(** * Properties *)

(** ** Maps *)

Section MapFacts.
Context {V : Type}.
Implicit Types (m : JSMap.t V) (k : string) (v : V).

Lemma get_set m k k' v :
  JSMap.get k (JSMap.set k' v m) = if String.eqb k k' then Some v else JSMap.get k m.
Proof.
  induction m as [|[k0 v0] m IH]; simpl.
  - reflexivity.
  - destruct (String.eqb k' k0) eqn:E'; simpl.
    + apply String.eqb_eq in E'; subst k0.
      destruct (String.eqb k k'); reflexivity.
    + destruct (String.eqb k k0) eqn:E0.
      * apply String.eqb_eq in E0; subst k0.
        destruct (String.eqb k k') eqn:E; [|reflexivity].
        apply String.eqb_eq in E; subst k'.
        rewrite String.eqb_refl in E'; discriminate.
      * exact IH.
Qed.

Lemma keys_set m k v :
  map fst (JSMap.set k v m)
  = match JSMap.get k m with
    | Some _ => map fst m
    | None => map fst m ++ [k]
    end.
Proof.
  induction m as [|[k0 v0] m IH]; simpl.
  - reflexivity.
  - destruct (String.eqb k k0) eqn:E; simpl.
    + apply String.eqb_eq in E; subst k0; reflexivity.
    + rewrite IH; destruct (JSMap.get k m); reflexivity.
Qed.

Lemma get_None_not_key m k : JSMap.get k m = None -> ~ In k (map fst m).
Proof.
  induction m as [|[k0 v0] m IH]; simpl; intros Hg.
  - tauto.
  - destruct (String.eqb k k0) eqn:E; [discriminate|].
    apply String.eqb_neq in E.
    intros [->|Hin]; [congruence|]. exact (IH Hg Hin).
Qed.

(** Keys stay pairwise distinct. *)
Lemma NoDup_keys_set m k v :
  NoDup (map fst m) -> NoDup (map fst (JSMap.set k v m)).
Proof.
  intros Hnd. rewrite keys_set.
  destruct (JSMap.get k m) eqn:Hg; [exact Hnd|].
  apply (Permutation_NoDup (Permutation_cons_append (map fst m) k)).
  constructor; [now apply get_None_not_key | exact Hnd].
Qed.

Lemma get_of_entry m k v :
  NoDup (map fst m) -> In (k, v) m -> JSMap.get k m = Some v.
Proof.
  induction m as [|[k0 v0] m IH]; simpl; intros Hnd Hin.
  - contradiction.
  - inversion Hnd as [|? ? Hnotin Hnd']; subst.
    destruct Hin as [Heq|Hin].
    + inversion Heq; subst. now rewrite String.eqb_refl.
    + destruct (String.eqb k k0) eqn:E.
      * apply String.eqb_eq in E; subst k0.
        exfalso; apply Hnotin. now apply (in_map fst) in Hin.
      * now apply IH.
Qed.

End MapFacts.

(** ** Sorting *)

Section SortFacts.
Context {A : Type} (comparefn : A -> A -> comparison).

Lemma insert_Permutation x l : Permutation (JSArray.insert comparefn x l) (x :: l).
Proof.
  induction l as [|y l IH]; simpl.
  - apply Permutation_refl.
  - destruct (comparefn x y); try apply Permutation_refl.
    eapply Permutation_trans; [apply perm_skip, IH | apply perm_swap].
Qed.

Lemma sort_Permutation l : Permutation (JSArray.sort comparefn l) l.
Proof.
  induction l as [|x l IH]; simpl.
  - apply Permutation_refl.
  - eapply Permutation_trans; [apply insert_Permutation | apply perm_skip, IH].
Qed.

Lemma sort_length l : List.length (JSArray.sort comparefn l) = List.length l.
Proof. apply Permutation_length, sort_Permutation. Qed.

(** A stable sort puts at the head the first element that sorts after
    none of its successors and before all of its predecessors. *)
Lemma sort_head (best : A) l2 : forall l1,
  Forall (fun d => comparefn d best = Gt) l1 ->
  Forall (fun d => comparefn best d <> Gt) l2 ->
  exists rest, JSArray.sort comparefn (l1 ++ best :: l2) = best :: rest.
Proof.
  induction l1 as [|x l1 IH]; intros H1 H2.
  - cbn [app JSArray.sort].
    destruct (JSArray.sort comparefn l2) as [|h t] eqn:Hs.
    + now exists [].
    + cbn [JSArray.insert].
      assert (Hh : comparefn best h <> Gt).
      { rewrite Forall_forall in H2. apply H2.
        apply (Permutation_in _ (sort_Permutation l2)).
        rewrite Hs. now left. }
      destruct (comparefn best h); try (eexists; reflexivity).
      now contradiction Hh.
  - inversion H1 as [|? ? Hx H1']; subst.
    destruct (IH H1' H2) as [rest Hrest].
    cbn [app JSArray.sort]. rewrite Hrest. cbn [JSArray.insert].
    rewrite Hx. eexists; reflexivity.
Qed.

Lemma last_cons_Some (x : A) l : exists y, JSArray.last (x :: l) = Some y.
Proof.
  revert x; induction l as [|z l IH]; intros x.
  - now exists x.
  - destruct (IH z) as [y Hy]. exists y. exact Hy.
Qed.

End SortFacts.

(** ** Sums of integers *)

Definition Zsum (l : list Z) : Z := fold_right Z.add 0 l.

Lemma fold_left_Zsum {A : Type} (f : A -> Z) (l : list A) (a : Z) :
  fold_left (fun sum p => sum + f p) l a = a + Zsum (map f l).
Proof.
  revert a; induction l as [|x l IH]; intros a; simpl.
  - lia.
  - rewrite IH. lia.
Qed.

Lemma Zsum_Permutation (l l' : list Z) : Permutation l l' -> Zsum l = Zsum l'.
Proof. induction 1; simpl; lia. Qed.

(** ** Bucketing *)

Section Bucketing.

Context {num : Type} `{Number num}.
Variable LocalTZA : Z -> bool -> Z.
Variable localeCompare : string -> string -> comparison.

(** [charge] falls into the period labelled [k]. *)
Definition inPeriod (groupBy : GroupBy) (k : string) (charge : Charge.t) : bool :=
  match periodKey LocalTZA groupBy charge with
  | inr k' => String.eqb k k'
  | inl _ => false
  end.

(** The charges of one bucket, in input order. *)
Definition bucketCharges (groupBy : GroupBy) (k : string) (charges : list Charge.t)
  : list Charge.t :=
  filter (inPeriod groupBy k) charges.

(** The running total of a bucket: every amount is converted to major
    units and added, one transaction after the other. *)
Definition accumulate (charges : list Charge.t) : num :=
  fold_left (fun revenue charge => (revenue + ofZ (Charge.amount charge) / ofZ 100)%num)
            charges (ofZ 0).

Definition zeroBucket : Bucket.t num := {| Bucket.revenue := ofZ 0; Bucket.count := 0 |}.

Definition orZero (ob : option (Bucket.t num)) : Bucket.t num :=
  match ob with Some b => b | None => zeroBucket end.

Definition addTo (b : Bucket.t num) (charge : Charge.t) : Bucket.t num :=
  {| Bucket.revenue := (Bucket.revenue b + ofZ (Charge.amount charge) / ofZ 100)%num;
     Bucket.count := Bucket.count b + 1 |}.

Definition step (groupBy : GroupBy) (k : string)
    (ob : option (Bucket.t num)) (charge : Charge.t) : option (Bucket.t num) :=
  if inPeriod groupBy k charge then Some (addTo (orZero ob) charge) else ob.

Lemma forEachCharge_get groupBy charges :
  forall m m', forEachCharge LocalTZA groupBy charges m = inr m' ->
  forall k, JSMap.get k m' = fold_left (step groupBy k) charges (JSMap.get k m).
Proof.
  induction charges as [|c cs IH]; simpl; intros m m' Hrun k.
  - now inversion Hrun.
  - unfold bind, addCharge in Hrun.
    destruct (periodKey LocalTZA groupBy c) as [e|s] eqn:Hkey; simpl in Hrun;
      [discriminate|].
    rewrite (IH _ _ Hrun k), get_set. f_equal.
    unfold step, inPeriod. rewrite Hkey.
    destruct (String.eqb k s) eqn:E; [|reflexivity].
    apply String.eqb_eq in E; subst s. reflexivity.
Qed.

Lemma forEachCharge_NoDup groupBy charges :
  forall m m', forEachCharge LocalTZA groupBy charges m = inr m' ->
  NoDup (map fst m) -> NoDup (map fst m').
Proof.
  induction charges as [|c cs IH]; simpl; intros m m' Hrun Hnd.
  - now inversion Hrun; subst.
  - unfold bind, addCharge in Hrun.
    destruct (periodKey LocalTZA groupBy c) as [e|s]; simpl in Hrun; [discriminate|].
    eapply IH; [exact Hrun | now apply NoDup_keys_set].
Qed.

Lemma fold_addTo charges : forall b,
  fold_left addTo charges b
  = {| Bucket.revenue :=
         fold_left (fun revenue charge =>
                      (revenue + ofZ (Charge.amount charge) / ofZ 100)%num)
                   charges (Bucket.revenue b);
       Bucket.count := Bucket.count b + Z.of_nat (List.length charges) |}.
Proof.
  induction charges as [|c cs IH]; intros b.
  - simpl. destruct b; simpl. f_equal. lia.
  - cbn [fold_left List.length]. rewrite IH. simpl. f_equal. lia.
Qed.

Lemma fold_step groupBy k charges : forall ob,
  fold_left (step groupBy k) charges ob
  = match bucketCharges groupBy k charges with
    | [] => ob
    | cs => Some (fold_left addTo cs (orZero ob))
    end.
Proof.
  unfold bucketCharges.
  induction charges as [|c cs IH]; intros ob; simpl.
  - reflexivity.
  - rewrite IH. unfold step.
    destruct (inPeriod groupBy k c); simpl.
    + destruct (filter (inPeriod groupBy k) cs); reflexivity.
    + reflexivity.
Qed.

(** What the map holds for a key once all charges are processed. *)
Lemma forEachCharge_entry groupBy charges m' k b :
  forEachCharge LocalTZA groupBy charges [] = inr m' ->
  In (k, b) m' ->
  bucketCharges groupBy k charges <> []
  /\ Bucket.revenue b = accumulate (bucketCharges groupBy k charges)
  /\ Bucket.count b = Z.of_nat (List.length (bucketCharges groupBy k charges)).
Proof.
  intros Hrun Hin.
  assert (Hnd : NoDup (map fst m'))
    by (eapply forEachCharge_NoDup; [exact Hrun | constructor]).
  pose proof (get_of_entry _ _ _ Hnd Hin) as Hget.
  rewrite (forEachCharge_get _ _ _ _ Hrun k), fold_step in Hget. simpl in Hget.
  destruct (bucketCharges groupBy k charges) as [|c cs] eqn:Hb; [discriminate|].
  inversion Hget as [Hb']. rewrite fold_addTo.
  cbn [Bucket.revenue Bucket.count addTo zeroBucket].
  split; [discriminate|]. split; [reflexivity|].
  change (List.length (c :: cs)) with (S (List.length cs)). lia.
Qed.

Definition countSum (m : JSMap.t (Bucket.t num)) : Z :=
  Zsum (map (fun e => Bucket.count (snd e)) m).

Lemma countSum_set m k v :
  countSum (JSMap.set k v m)
  = countSum m + Bucket.count v - Bucket.count (orZero (JSMap.get k m)).
Proof.
  unfold countSum.
  induction m as [|[k0 v0] m IH]; simpl.
  - lia.
  - destruct (String.eqb k k0); simpl; [|rewrite IH]; lia.
Qed.

(** Every charge is counted in exactly one bucket. *)
Lemma forEachCharge_countSum groupBy charges :
  forall m m', forEachCharge LocalTZA groupBy charges m = inr m' ->
  countSum m' = countSum m + Z.of_nat (List.length charges).
Proof.
  induction charges as [|c cs IH]; intros m m' Hrun.
  - simpl in Hrun. inversion Hrun; subst. simpl. lia.
  - cbn [forEachCharge] in Hrun. unfold bind, addCharge in Hrun.
    destruct (periodKey LocalTZA groupBy c) as [e|s]; simpl in Hrun; [discriminate|].
    rewrite (IH _ _ Hrun), countSum_set. cbn [List.length Bucket.count].
    unfold orZero, zeroBucket.
    destruct (JSMap.get s m); simpl; lia.
Qed.

(** The result of [groupChargesByPeriod], unfolded to the map it is read
    from. *)
Lemma groupChargesByPeriod_inr charges groupBy periodData :
  groupChargesByPeriod LocalTZA localeCompare charges groupBy = inr periodData ->
  exists m,
    forEachCharge LocalTZA groupBy charges [] = inr m
    /\ Permutation periodData (map toPeriodDatum m).
Proof.
  unfold groupChargesByPeriod, bind. intros Hg.
  destruct (forEachCharge LocalTZA groupBy charges []) as [e|m]; [discriminate|].
  exists m. split; [reflexivity|].
  inversion Hg; subst. apply sort_Permutation.
Qed.

Lemma period_toPeriodDatum (m : JSMap.t (Bucket.t num)) :
  map PeriodDatum.period (map toPeriodDatum m) = map fst m.
Proof.
  induction m as [|[k b] m IH]; simpl; [reflexivity|now rewrite IH].
Qed.

Lemma count_toPeriodDatum (m : JSMap.t (Bucket.t num)) :
  Zsum (map PeriodDatum.transactionCount (map toPeriodDatum m)) = countSum m.
Proof.
  unfold countSum.
  induction m as [|[k b] m IH]; simpl; [reflexivity|now rewrite IH].
Qed.


Lemma groupChargesByPeriod_count charges groupBy periodData :
  groupChargesByPeriod LocalTZA localeCompare charges groupBy = inr periodData ->
  Zsum (map PeriodDatum.transactionCount periodData) = Z.of_nat (List.length charges).
Proof.
  intros Hg. destruct (groupChargesByPeriod_inr _ _ _ Hg) as (m & Hrun & Hperm).
  rewrite (Zsum_Permutation _ _ (Permutation_map PeriodDatum.transactionCount Hperm)).
  rewrite count_toPeriodDatum, (forEachCharge_countSum _ _ _ _ Hrun).
  reflexivity.
Qed.

(** A reported bucket, in terms of the charges of its period. *)
Lemma groupChargesByPeriod_bucket charges groupBy periodData d :
  groupChargesByPeriod LocalTZA localeCompare charges groupBy = inr periodData ->
  In d periodData ->
  let bucket := bucketCharges groupBy (PeriodDatum.period d) charges in
  bucket <> []
  /\ PeriodDatum.revenue d
     = (Math_round (accumulate bucket * ofZ 100) / ofZ 100)%num
  /\ PeriodDatum.transactionCount d = Z.of_nat (List.length bucket).
Proof.
  intros Hg Hin.
  destruct (groupChargesByPeriod_inr _ _ _ Hg) as (m & Hrun & Hperm).
  apply (Permutation_in _ Hperm), in_map_iff in Hin.
  destruct Hin as ([k b] & <- & Hin). simpl.
  destruct (forEachCharge_entry _ _ _ _ _ Hrun Hin) as (Hne & Hrev & Hcnt).
  now rewrite Hrev, Hcnt.
Qed.

End Bucketing.

(** ** Insights *)

Section Insights.

Context {num : Type} `{Number num}.

Definition highestLine (d : PeriodDatum.t num) : string :=
  "Highest revenue period: " +++ PeriodDatum.period d
  +++ " with $" +++ toFixed2 (PeriodDatum.revenue d).

Definition lowestLine (d : PeriodDatum.t num) : string :=
  "Lowest revenue period: " +++ PeriodDatum.period d
  +++ " with $" +++ toFixed2 (PeriodDatum.revenue d).

Definition averageLine (avgPerPeriod : num) : string :=
  "Average revenue per period: $" +++ toFixed2 avgPerPeriod.

Definition countLine (totalTransactions : Z) : string :=
  "Processed " +++ JSString.ofZ totalTransactions
  +++ " successful transactions during this period.".

(** The comparator [(a, b) => b.revenue - a.revenue]. *)
Definition byRevenueDesc (a b : PeriodDatum.t num) : comparison :=
  num_sign (PeriodDatum.revenue b - PeriodDatum.revenue a)%num.

Definition totalTransactions (periodData : list (PeriodDatum.t num)) : Z :=
  Zsum (map PeriodDatum.transactionCount periodData).

(** The last line, present when there are transactions. *)
Definition countPart (periodData : list (PeriodDatum.t num)) : list string :=
  if 0 <? totalTransactions periodData
  then [countLine (totalTransactions periodData)]
  else [].

Definition optLine {A : Type} (line : A -> string) (o : option A) : list string :=
  match o with
  | Some a => [line a]
  | None => []
  end.

(** The first line: the head of the buckets sorted by revenue,
    descending. *)
Definition bestPart (periodData : list (PeriodDatum.t num)) : list string :=
  optLine highestLine (hd_error (JSArray.sort byRevenueDesc periodData)).

(** The second line, for two buckets or more: the last of the sorted
    buckets. *)
Definition worstPart (periodData : list (PeriodDatum.t num)) : list string :=
  if (2 <=? List.length periodData)%nat
  then optLine lowestLine (JSArray.last (JSArray.sort byRevenueDesc periodData))
  else [].

Definition averagePerPeriod (periodData : list (PeriodDatum.t num))
    (totalRevenue : num) : num :=
  if (1 <=? List.length periodData)%nat
  then (totalRevenue / ofZ (Z.of_nat (List.length periodData)))%num
  else ofZ 0.

(** The lines of [generateInsights], read off the specification: best
    period, worst period, average, count. *)
Definition expectedInsights (periodData : list (PeriodDatum.t num))
    (totalRevenue : num) : list string :=
  bestPart periodData
  ++ worstPart periodData
  ++ [averageLine (averagePerPeriod periodData totalRevenue)]
  ++ countPart periodData.

Lemma sorted_nonempty (d : PeriodDatum.t num) l :
  exists best rest worst,
    JSArray.sort byRevenueDesc (d :: l) = best :: rest
    /\ JSArray.last (JSArray.sort byRevenueDesc (d :: l)) = Some worst.
Proof.
  pose proof (sort_length byRevenueDesc (d :: l)) as Hlen.
  destruct (JSArray.sort byRevenueDesc (d :: l)) as [|best rest] eqn:Hs;
    [discriminate|].
  destruct (last_cons_Some best rest) as [worst Hw].
  now exists best, rest, worst.
Qed.

Lemma bestPart_length periodData :
  List.length (bestPart periodData)
  = if (1 <=? List.length periodData)%nat then 1%nat else 0%nat.
Proof.
  unfold bestPart. destruct periodData as [|d l]; [reflexivity|].
  destruct (sorted_nonempty d l) as (best & rest & worst & Hs & _).
  now rewrite Hs.
Qed.

Lemma worstPart_length periodData :
  List.length (worstPart periodData)
  = if (2 <=? List.length periodData)%nat then 1%nat else 0%nat.
Proof.
  unfold worstPart. destruct periodData as [|d l]; [reflexivity|].
  destruct (sorted_nonempty d l) as (best & rest & worst & _ & Hw).
  rewrite Hw. now destruct (2 <=? _)%nat.
Qed.

Lemma generateInsights_expected periodData totalRevenue :
  generateInsights periodData totalRevenue
  = inr (expectedInsights periodData totalRevenue).
Proof.
  unfold generateInsights, expectedInsights, bestPart, worstPart,
    averagePerPeriod, countPart, totalTransactions.
  rewrite fold_left_Zsum, Z.add_0_l.
  fold byRevenueDesc.
  destruct periodData as [|d1 [|d2 l]].
  - change (0 <? Z.of_nat (List.length (@nil (PeriodDatum.t num)))) with false.
    cbn [bind ret push app map hd_error JSArray.last JSArray.sort optLine
         List.length Nat.leb].
    destruct (0 <? _); reflexivity.
  - change (JSArray.sort byRevenueDesc [d1]) with [d1].
    change (0 <? Z.of_nat (List.length [d1])) with true.
    change (1 <? Z.of_nat (List.length [d1])) with false.
    cbn [bind ret push app hd_error JSArray.last optLine List.length Nat.leb].
    destruct (0 <? _); reflexivity.
  - destruct (sorted_nonempty d1 (d2 :: l)) as (best & rest & worst & Hs & Hw).
    rewrite Hw, Hs. cbn [hd_error].
    replace (0 <? Z.of_nat (List.length (d1 :: d2 :: l))) with true
      by (symmetry; apply Z.ltb_lt; cbn [List.length]; lia).
    replace (1 <? Z.of_nat (List.length (d1 :: d2 :: l))) with true
      by (symmetry; apply Z.ltb_lt; cbn [List.length]; lia).
    cbn [bind ret push app optLine List.length Nat.leb].
    destruct (0 <? _); reflexivity.
Qed.

Lemma generateInsights_returns periodData totalRevenue :
  exists insights, generateInsights periodData totalRevenue = inr insights.
Proof. eexists. apply generateInsights_expected. Qed.

End Insights.

(** ** The pagination loop *)

Definition succeeded (charge : Charge.t) : bool :=
  String.eqb (Charge.status charge) "succeeded".


(** What the service reads of a response: the exception, or the settled
    charges of the page, the [has_more] flag and the cursor for the next
    request. *)
Definition settledView (response : Result ApiList.t)
  : Result (list Charge.t * bool * option string) :=
  match response with
  | inl e => inl e
  | inr page =>
      inr (filter succeeded (ApiList.data page),
           ApiList.has_more page,
           if ApiList.has_more page
           then option_map Charge.id (JSArray.last (ApiList.data page))
           else None)
  end.

Section Paging.

Variable charges_list : nat -> ChargeListParams.t -> Result ApiList.t.


(** The loop is still running after [fuel] requests only if every one of
    them was answered with a page that announces more. *)
Lemma fetchCharges_None fuel startTimestamp endTimestamp :
  forall calls charges startingAfter,
  fetchCharges charges_list fuel startTimestamp endTimestamp
               calls charges startingAfter = None ->
  forall k, (calls <= k < calls + fuel)%nat ->
  exists params page,
    charges_list k params = inr page /\ ApiList.has_more page = true.
Proof.
  induction fuel as [|fuel IH]; intros calls charges startingAfter Hrun k Hk.
  - lia.
  - cbn [fetchCharges] in Hrun.
    match type of Hrun with context [charges_list calls ?p] =>
      destruct (charges_list calls p) as [e|page] eqn:Hresp; [discriminate|];
      destruct (ApiList.has_more page) eqn:Hmore; [|discriminate];
      destruct (Nat.eq_dec k calls) as [->|Hne];
      [now exists p, page|]
    end.
    apply (IH _ _ _ Hrun). lia.
Qed.

Lemma fetchCharges_succeeded fuel startTimestamp endTimestamp :
  forall calls charges startingAfter fetched,
  fetchCharges charges_list fuel startTimestamp endTimestamp
               calls charges startingAfter = Some (inr fetched) ->
  Forall (fun c => Charge.status c = "succeeded") charges ->
  Forall (fun c => Charge.status c = "succeeded") fetched.
Proof.
  induction fuel as [|fuel IH]; intros calls charges startingAfter fetched Hrun Hall.
  - discriminate.
  - cbn [fetchCharges] in Hrun.
    match type of Hrun with context [charges_list calls ?p] =>
      destruct (charges_list calls p) as [e|page]; [discriminate|]
    end.
    assert (Hall' : Forall (fun c => Charge.status c = "succeeded")
                      (charges ++ filter
                         (fun charge => String.eqb (Charge.status charge) "succeeded")
                         (ApiList.data page))).
    { apply Forall_app. split; [exact Hall|].
      apply Forall_forall. intros c Hc. apply filter_In in Hc.
      now apply String.eqb_eq. }
    destruct (ApiList.has_more page).
    + eapply IH; [exact Hrun | exact Hall'].
    + inversion Hrun; subst. exact Hall'.
Qed.

End Paging.

Lemma fetchCharges_settledView charges_list charges_list' :
  (forall n params,
     settledView (charges_list n params) = settledView (charges_list' n params)) ->
  forall fuel startTimestamp endTimestamp calls charges startingAfter,
    fetchCharges charges_list fuel startTimestamp endTimestamp calls charges startingAfter
    = fetchCharges charges_list' fuel startTimestamp endTimestamp calls charges startingAfter.
Proof.
  intros Hsame fuel startTimestamp endTimestamp.
  induction fuel as [|fuel IH]; intros calls charges startingAfter.
  - reflexivity.
  - cbn [fetchCharges].
    match goal with |- context [charges_list calls ?p] =>
      specialize (Hsame calls p);
      destruct (charges_list calls p) as [e|page];
      destruct (charges_list' calls p) as [e'|page']
    end; simpl in Hsame; try discriminate.
    + congruence.
    + injection Hsame as Hdata Hmore Hcursor.
      fold succeeded. unfold succeeded at 1 2 in Hdata.
      rewrite <- Hmore in *.
      unfold succeeded. rewrite <- Hdata.
      destruct (ApiList.has_more page).
      * destruct (JSArray.last (ApiList.data page)),
                 (JSArray.last (ApiList.data page')); simpl in Hcursor;
          try discriminate; [injection Hcursor as ->|]; apply IH.
      * reflexivity.
Qed.

(** ** [analyzeRevenueTrends] and [issueRefund], for any arithmetic *)

Section Service.

Context {num : Type} `{Number num}.
Variable LocalTZA : Z -> bool -> Z.
Variable localeCompare : string -> string -> comparison.
Variable Date_parse : string -> option Z.

(** The charges the loop hands to the rest of the [try] block. *)
Definition retained (charges_list : nat -> ChargeListParams.t -> Result ApiList.t)
    (fuel : nat) (args : RevenueTrends.args) : option (Result (list Charge.t)) :=
  fetchCharges charges_list fuel
    (toTimestamp Date_parse (RevenueTrends.startDate args))
    (toTimestamp Date_parse (RevenueTrends.endDate args))
    0 [] None.

(** The payload of the [catch] block. *)
Definition failurePayload (message : string) : RevenueTrends.t num :=
  {| RevenueTrends.summary :=
       {| Summary.totalRevenue := ofZ 0;
          Summary.transactionCount := 0;
          Summary.averageTransaction := ofZ 0 |};
     RevenueTrends.periodData := [];
     RevenueTrends.insights := [];
     RevenueTrends.error := Some ("Failed to analyze revenue trends: " +++ message) |}.

(** The success payload of [summarize], field by field. *)
Lemma summarize_inr charges groupBy payload :
  summarize LocalTZA localeCompare charges groupBy = inr payload ->
  exists periodData,
    groupChargesByPeriod LocalTZA localeCompare charges groupBy = inr periodData
    /\ RevenueTrends.periodData payload = periodData
    /\ RevenueTrends.error payload = None
    /\ Summary.transactionCount (RevenueTrends.summary payload)
       = Z.of_nat (List.length charges)
    /\ Summary.totalRevenue (RevenueTrends.summary payload)
       = (fold_left (fun sum charge => sum + ofZ (Charge.amount charge)) charges (ofZ 0)
          / ofZ 100)%num
    /\ RevenueTrends.insights payload
       = expectedInsights periodData (Summary.totalRevenue (RevenueTrends.summary payload)).
Proof.
  unfold summarize, bind. intros Hs.
  destruct (groupChargesByPeriod LocalTZA localeCompare charges groupBy)
    as [e|periodData]; [discriminate|].
  rewrite generateInsights_expected in Hs.
  inversion Hs; subst; clear Hs. exists periodData. cbn. repeat split.
Qed.


Lemma analyzeRevenueTrends_unfold charges_list fuel args :
  analyzeRevenueTrends LocalTZA localeCompare Date_parse charges_list fuel args
  = match retained charges_list fuel args with
    | None => None
    | Some (inl e) => Some (failurePayload (errorMessage e))
    | Some (inr charges) =>
        match summarize LocalTZA localeCompare charges (RevenueTrends.groupBy args) with
        | inr payload => Some payload
        | inl e => Some (failurePayload (errorMessage e))
        end
    end.
Proof.
  unfold analyzeRevenueTrends, retained.
  destruct (fetchCharges _ _ _ _ _ _ _) as [[e|charges]|]; reflexivity.
Qed.

(** C5. [generateInsights] never throws, and its lines are, in this order
    and with no other line: the highest-revenue line (exactly when there is
    at least one bucket), the lowest-revenue line (exactly when there are at
    least two), the average line (always; [totalRevenue / bucketCount], or
    0 without buckets, rendered by [toFixed(2)]), and the count line
    (exactly when the buckets' transaction counts sum to more than 0). *)
Theorem generateInsights_order (periodData : list (PeriodDatum.t num))
    (totalRevenue : num) :
  generateInsights periodData totalRevenue
  = inr (bestPart periodData
         ++ worstPart periodData
         ++ [averageLine (averagePerPeriod periodData totalRevenue)]
         ++ countPart periodData)
  /\ List.length (bestPart periodData)
     = (if (1 <=? List.length periodData)%nat then 1 else 0)%nat
  /\ List.length (worstPart periodData)
     = (if (2 <=? List.length periodData)%nat then 1 else 0)%nat
  /\ averagePerPeriod periodData totalRevenue
     = (if (1 <=? List.length periodData)%nat
        then (totalRevenue / ofZ (Z.of_nat (List.length periodData)))%num
        else ofZ 0)
  /\ countPart periodData
     = (if 0 <? Zsum (map PeriodDatum.transactionCount periodData)
        then [countLine (Zsum (map PeriodDatum.transactionCount periodData))]
        else []).
Proof.
  split; [apply generateInsights_expected|].
  split; [apply bestPart_length|].
  split; [apply worstPart_length|].
  split; reflexivity.
Qed.

(** C6. Among buckets of maximum revenue, [generateInsights] reports the
    one that comes first in the input.  Revenues are compared as the sort
    comparator compares them, by the sign of their difference: when [best]
    exceeds every bucket before it ([best.revenue - d.revenue > 0]) and no
    bucket after it exceeds [best] ([d.revenue - best.revenue > 0] fails),
    the first line names [best]. *)
Theorem generateInsights_tie_break
    (before after : list (PeriodDatum.t num)) (best : PeriodDatum.t num)
    (totalRevenue : num)
    (Hbefore : Forall (fun d => num_sign (PeriodDatum.revenue best
                                          - PeriodDatum.revenue d)%num = Gt) before)
    (Hafter : Forall (fun d => num_sign (PeriodDatum.revenue d
                                         - PeriodDatum.revenue best)%num <> Gt) after) :
  exists rest,
    generateInsights (before ++ best :: after) totalRevenue
    = inr (("Highest revenue period: " +++ PeriodDatum.period best
            +++ " with $" +++ toFixed2 (PeriodDatum.revenue best)) :: rest).
Proof.
  rewrite generateInsights_expected. unfold expectedInsights, bestPart.
  destruct (sort_head byRevenueDesc best after before Hbefore Hafter) as [sorted Hs].
  rewrite Hs. cbn [hd_error optLine app]. eexists. reflexivity.
Qed.

(** C7. The payload of [analyzeRevenueTrends] depends on the fetched pages
    only through their charges with status "succeeded" (and the paging
    flag and cursor): two ledgers whose pages agree on those give the same
    payload, whatever the amounts, dates and number of the other charges;
    and every charge the loop retains has status "succeeded". *)
Theorem analyzeRevenueTrends_only_succeeded
    (charges_list charges_list' : nat -> ChargeListParams.t -> Result ApiList.t)
    (fuel : nat) (args : RevenueTrends.args)
    (Hsame : forall n params,
        settledView (charges_list n params) = settledView (charges_list' n params)) :
  analyzeRevenueTrends LocalTZA localeCompare Date_parse charges_list fuel args
  = analyzeRevenueTrends LocalTZA localeCompare Date_parse charges_list' fuel args
  /\ forall charges,
       retained charges_list fuel args = Some (inr charges) ->
       Forall (fun c => Charge.status c = "succeeded") charges.
Proof.
  split.
  - rewrite !analyzeRevenueTrends_unfold. unfold retained.
    now rewrite (fetchCharges_settledView _ _ Hsame).
  - intros charges Hret. unfold retained in Hret.
    eapply fetchCharges_succeeded; [exact Hret | constructor].
Qed.



(** How the two totals are computed.  The summary's total revenue is the
    sum of the amounts in minor units, divided by 100 once.  A bucket's
    revenue is the running total of its charges, each amount divided by 100
    and added in input order, then rounded once:
    [Math.round(x * 100) / 100]. *)
Lemma bucket_revenue_accumulates
    (charges : list Charge.t) (groupBy : GroupBy) (payload : RevenueTrends.t num)
    (Hrun : summarize LocalTZA localeCompare charges groupBy = inr payload) :
  Summary.totalRevenue (RevenueTrends.summary payload)
  = (fold_left (fun sum charge => sum + ofZ (Charge.amount charge)) charges (ofZ 0)
     / ofZ 100)%num
  /\ forall d, In d (RevenueTrends.periodData payload) ->
       PeriodDatum.revenue d
       = (Math_round
            (accumulate (bucketCharges LocalTZA groupBy (PeriodDatum.period d) charges)
             * ofZ 100) / ofZ 100)%num.
Proof.
  destruct (summarize_inr _ _ _ Hrun) as (periodData & Hg & Hpd & _ & _ & Htotal & _).
  subst periodData. split; [exact Htotal|].
  intros d Hin.
  now destruct (groupChargesByPeriod_bucket _ _ _ _ _ _ Hg Hin) as (_ & Hrev & _).
Qed.

(** C9. [issueRefund] submits one request: the payment identifier with the
    amount [Math.round(amount * 100)].  When the ledger confirms with a
    refund, the result is "success" with the confirmed amount divided by
    100; when the ledger call throws, it is "error" with amount 0 and an
    error message.  No exception leaves the function. *)
Theorem issueRefund_result
    (refunds_create : RefundCreateParams.t num -> Result Refund.t)
    (args : RefundResult.args num) :
  let request :=
    {| RefundCreateParams.payment_intent := RefundResult.paymentIntentId args;
       RefundCreateParams.amount :=
         Math_round (RefundResult.amount args * ofZ 100)%num |} in
  match refunds_create request with
  | inr refund =>
      issueRefund refunds_create args
      = {| RefundResult.status := "success";
           RefundResult.amountRefunded := (ofZ (Refund.amount refund) / ofZ 100)%num;
           RefundResult.error := None |}
  | inl e =>
      issueRefund refunds_create args
      = {| RefundResult.status := "error";
           RefundResult.amountRefunded := ofZ 0;
           RefundResult.error := Some ("Failed to issue refund: " +++ errorMessage e) |}
  end.
Proof.
  unfold issueRefund. cbv zeta.
  destruct (refunds_create _) as [e|refund]; reflexivity.
Qed.

End Service.

(** The sum of the amounts of the charges, in minor units. *)
Definition minorTotal (charges : list Charge.t) : Z :=
  Zsum (map Charge.amount charges).

(** ** The calendar *)

(** [YearFromDay] is the year of ECMA-262's [YearFromTime]: the one whose
    first day is the last at or before [d]. *)
Theorem YearFromDay_correct d :
  JSDate.DayFromYear (JSDate.YearFromDay d) <= d
  < JSDate.DayFromYear (JSDate.YearFromDay d + 1).
Proof.
  unfold JSDate.YearFromDay.
  set (y := 1970 + 400 * d / 146097).
  assert (Hy : 146097 * (y - 1970) <= 400 * d < 146097 * (y - 1969))
    by (unfold y; Z.div_mod_to_equations; lia).
  clearbody y.
  destruct (Z.leb_spec (JSDate.DayFromYear (y + 1)) d) as [Hnext|Hnext];
    [|destruct (Z.ltb_spec d (JSDate.DayFromYear y)) as [Hprev|Hprev]].
  - split; [assumption|].
    unfold JSDate.DayFromYear in *. Z.div_mod_to_equations. lia.
  - split; [|replace (y - 1 + 1) with y by ring; assumption].
    unfold JSDate.DayFromYear in *. Z.div_mod_to_equations. lia.
  - lia.
Qed.

(** A year has [DaysInYear] days. *)
Lemma DayFromYear_succ y :
  JSDate.DayFromYear (y + 1) = JSDate.DayFromYear y + JSDate.DaysInYear y.
Proof.
  unfold JSDate.DayFromYear, JSDate.DaysInYear.
  destruct (Z.eqb_spec (y mod 4) 0) as [H4|H4],
           (Z.eqb_spec (y mod 100) 0) as [H100|H100],
           (Z.eqb_spec (y mod 400) 0) as [H400|H400]; cbn [negb];
    revert H4 H100 H400; Z.div_mod_to_equations; intros; lia.
Qed.

(** ** Week keys *)

(** The Monday on or before the day of [t], at the same time of day: the
    week start of the specification, [date - ((weekday + 6) % 7)] days. *)
Definition mondayOnOrBefore (t : Z) : Z :=
  t - ((JSDate.WeekDay t + 6) mod 7) * JSDate.msPerDay.

(** A host whose local time is UTC. *)
Definition utcHost : Z -> bool -> Z := fun _ _ => 0.

Lemma MonthFromTime_range t : 0 <= JSDate.MonthFromTime t <= 11.
Proof.
  unfold JSDate.MonthFromTime.
  repeat match goal with |- context [if ?b then _ else _] => destruct b end; lia.
Qed.

Lemma monthStart_mod m leap :
  0 <= m <= 11 -> JSDate.monthStart (m mod 12) leap = JSDate.monthStart m leap.
Proof. intros Hm. now rewrite Z.mod_small by lia. Qed.

(** [setDate] moves a date by whole days. *)
Lemma setDate_utc t k :
  JSDate.setDate utcHost (Some t) (Some (JSDate.DateFromTime t + k))
  = JSDate.TimeClip (t + k * JSDate.msPerDay).
Proof.
  unfold JSDate.setDate, JSDate.LocalTime, JSDate.UTC, utcHost.
  rewrite Z.add_0_r, Z.sub_0_r. f_equal.
  pose proof (MonthFromTime_range t) as Hm.
  unfold JSDate.MakeDate, JSDate.MakeDay.
  rewrite (Z.div_small (JSDate.MonthFromTime t) 12) by lia.
  rewrite Z.add_0_r, monthStart_mod by lia.
  unfold JSDate.DateFromTime, JSDate.DayWithinYear, JSDate.InLeapYear,
    JSDate.TimeWithinDay, JSDate.Day.
  pose proof (Z.div_mod t JSDate.msPerDay) as Hdm.
  assert (Hms : JSDate.msPerDay <> 0) by discriminate.
  specialize (Hdm Hms).
  set (leap := if JSDate.DaysInYear (JSDate.YearFromTime t) =? 366 then 1 else 0) in *.
  nia.
Qed.

(** On a UTC host the week key is the date of the charge moved by
    [1 - weekday] days. *)
Lemma weekKey_utc (charge : Charge.t) :
  let t := Charge.created charge * 1000 in
  Z.abs t <= 8640000000000000 ->
  periodKey utcHost week charge
  = match JSDate.toISODate
            (JSDate.TimeClip (t + (1 - JSDate.WeekDay t) * JSDate.msPerDay)) with
    | Some s => inr s
    | None => inl invalidTimeValue
    end.
Proof.
  intros t Ht. unfold periodKey, JSDate.ofNumber. fold t.
  assert (Hclip : JSDate.TimeClip t = Some t).
  { unfold JSDate.TimeClip.
    replace (Z.abs t >? 8640000000000000) with false
      by (symmetry; rewrite Z.gtb_ltb; apply Z.ltb_ge; exact Ht).
    reflexivity. }
  rewrite !Hclip.
  cbn [JSDate.getDate JSDate.getDay option_map mondayOffset].
  unfold JSDate.LocalTime, utcHost. rewrite Z.add_0_r.
  replace (JSDate.DateFromTime t - JSDate.WeekDay t + 1)
    with (JSDate.DateFromTime t + (1 - JSDate.WeekDay t)) by lia.
  rewrite setDate_utc. reflexivity.
Qed.

(** From Monday to Saturday this is the Monday on or before the charge. *)
Lemma weekKey_utc_weekday (charge : Charge.t) :
  let t := Charge.created charge * 1000 in
  Z.abs t <= 8640000000000000 ->
  JSDate.WeekDay t <> 0 ->
  periodKey utcHost week charge
  = match JSDate.toISODate (JSDate.TimeClip (mondayOnOrBefore t)) with
    | Some s => inr s
    | None => inl invalidTimeValue
    end.
Proof.
  intros t Ht Hw. rewrite weekKey_utc by exact Ht. fold t.
  unfold mondayOnOrBefore.
  assert (Hrange : 0 <= JSDate.WeekDay t < 7)
    by (unfold JSDate.WeekDay; apply Z.mod_pos_bound; lia).
  replace ((JSDate.WeekDay t + 6) mod 7) with (JSDate.WeekDay t - 1)
    by (apply (Z.mod_unique_pos _ _ 1); lia).
  replace (t - (JSDate.WeekDay t - 1) * JSDate.msPerDay)
    with (t + (1 - JSDate.WeekDay t) * JSDate.msPerDay) by ring.
  reflexivity.
Qed.

(** On a Sunday it is the following Monday. *)
Lemma weekKey_utc_sunday (charge : Charge.t) :
  let t := Charge.created charge * 1000 in
  Z.abs t <= 8640000000000000 ->
  JSDate.WeekDay t = 0 ->
  periodKey utcHost week charge
  = match JSDate.toISODate (JSDate.TimeClip (t + JSDate.msPerDay)) with
    | Some s => inr s
    | None => inl invalidTimeValue
    end
  /\ mondayOnOrBefore t = t - 6 * JSDate.msPerDay.
Proof.
  intros t Ht Hw. rewrite weekKey_utc by exact Ht. fold t.
  unfold mondayOnOrBefore. rewrite Hw. split; [|reflexivity].
  replace (t + (1 - 0) * JSDate.msPerDay) with (t + JSDate.msPerDay) by ring.
  reflexivity.
Qed.

(** A charge created on Sunday 2024-01-07 at 12:00:00 UTC. *)
Definition sundayCharge : Charge.t :=
  {| Charge.id := "ch_sunday";
     Charge.amount := 1234;
     Charge.created := 1704628800;
     Charge.status := "succeeded" |}.

(** C1.  The code keys the Sunday charge to the following Monday,
    2024-01-08; the Monday on or before it, six days earlier, is
    2024-01-01. *)
Theorem weekKey_sunday_next_monday :
  JSDate.WeekDay (Charge.created sundayCharge * 1000) = 0
  /\ JSDate.toISODate (JSDate.ofNumber (Charge.created sundayCharge * 1000))
     = Some "2024-01-07"
  /\ periodKey utcHost week sundayCharge = inr "2024-01-08"
  /\ match groupChargesByPeriod (num := float) utcHost String.compare
             [sundayCharge] week with
     | inr periodData => map PeriodDatum.period periodData = ["2024-01-08"]
     | inl _ => False
     end
  /\ JSDate.toISODate
       (JSDate.TimeClip (mondayOnOrBefore (Charge.created sundayCharge * 1000)))
     = Some "2024-01-01".
Proof.
  split; [vm_compute; reflexivity|].
  split; [vm_compute; reflexivity|].
  split; [vm_compute; reflexivity|].
  split; vm_compute; reflexivity.
Qed.

(** ** Hosts and ledgers for the examples *)

(** Comparison by code units; it agrees with [localeCompare] on the period
    labels, which are digits and hyphens of equal length per granularity. *)
Definition codeUnitCompare : string -> string -> comparison := String.compare.

Definition digitOf (c : ascii) : option Z :=
  let n := Z.of_nat (nat_of_ascii c) - 48 in
  if (0 <=? n) && (n <=? 9) then Some n else None.

Fixpoint numberOf (acc : Z) (cs : list ascii) : option Z :=
  match cs with
  | [] => Some acc
  | c :: cs' =>
      match digitOf c with
      | Some d => numberOf (10 * acc + d) cs'
      | None => None
      end
  end.

(** [new Date(s).getTime()] for the date-only form YYYY-MM-DD, which is read
    as UTC midnight; any other string is an invalid date here. *)
Definition isoDateParse (s : string) : option Z :=
  match list_ascii_of_string s with
  | [y1; y2; y3; y4; sep1; m1; m2; sep2; d1; d2] =>
      match numberOf 0 [y1; y2; y3; y4], numberOf 0 [m1; m2], numberOf 0 [d1; d2] with
      | Some y, Some m, Some d =>
          if (sep1 =? "-")%char && (sep2 =? "-")%char
             && (1 <=? m) && (m <=? 12) && (1 <=? d) && (d <=? 31)
          then Some (JSDate.MakeDate (JSDate.MakeDay y (m - 1) d) 0)
          else None
      | _, _, _ => None
      end
  | _ => None
  end.

(** A ledger that answers every request with the same single page. *)
Definition onePage (data : list Charge.t) : nat -> ChargeListParams.t -> Result ApiList.t :=
  fun _ _ => inr {| ApiList.data := data; ApiList.has_more := false |}.

Definition january2024 (groupBy : GroupBy) : RevenueTrends.args :=
  {| RevenueTrends.startDate := "2024-01-01";
     RevenueTrends.endDate := "2024-01-31";
     RevenueTrends.groupBy := groupBy |}.

(** A charge created on 2024-01-01 at 00:00:00 UTC. *)
Definition newYearCharge (id : string) (amount : Z) (status : string) : Charge.t :=
  {| Charge.id := id;
     Charge.amount := amount;
     Charge.created := 1704067200;
     Charge.status := status |}.

(** The charges of the specification's example. *)
Definition exampleCharges : list Charge.t :=
  [newYearCharge "ch_1" 1000 "succeeded";
   newYearCharge "ch_2" 2000 "succeeded";
   newYearCharge "ch_3" 1500 "succeeded"].

Example isoDateParse_january :
  isoDateParse "2024-01-01" = Some 1704067200000
  /\ isoDateParse "2024-01-31" = Some 1706659200000
  /\ isoDateParse "yesterday" = None.
Proof. repeat apply conj; reflexivity. Qed.

(** The example of the specification, in double precision: one bucket of
    45.00 with three transactions, total 45.00, average 15.00. *)
Example example_day_binary64 :
  option_map
    (fun p =>
       (toFixed2 (Summary.totalRevenue (RevenueTrends.summary p)),
        Summary.transactionCount (RevenueTrends.summary p),
        toFixed2 (Summary.averageTransaction (RevenueTrends.summary p)),
        map (fun d => (PeriodDatum.period d, toFixed2 (PeriodDatum.revenue d),
                       PeriodDatum.transactionCount d))
            (RevenueTrends.periodData p),
        RevenueTrends.insights p,
        RevenueTrends.error p))
    (analyzeRevenueTrends (num := float) utcHost codeUnitCompare isoDateParse
       (onePage exampleCharges) 1 (january2024 day))
  = Some ("45.00", 3, "15.00", [("2024-01-01", "45.00", 3)],
          ["Highest revenue period: 2024-01-01 with $45.00";
           "Average revenue per period: $45.00";
           "Processed 3 successful transactions during this period."],
          None).
Proof. vm_compute. reflexivity. Qed.

(** ** An empty transaction set *)

(** The payload for an empty set of charges, in double precision. *)
Definition emptyPayload : RevenueTrends.t float :=
  {| RevenueTrends.summary :=
       {| Summary.totalRevenue := PrimFloat.zero;
          Summary.transactionCount := 0;
          Summary.averageTransaction := PrimFloat.zero |};
     RevenueTrends.periodData := [];
     RevenueTrends.insights := ["Average revenue per period: $0.00"];
     RevenueTrends.error := None |}.

(** C2, as stated, fails: for a ledger without charges the insights are not
    empty, they hold the average line. *)
Lemma empty_insights_not_empty :
  analyzeRevenueTrends (num := float) utcHost codeUnitCompare isoDateParse
    (onePage []) 1 (january2024 day)
  = Some emptyPayload
  /\ RevenueTrends.insights emptyPayload = ["Average revenue per period: $0.00"]
  /\ RevenueTrends.insights emptyPayload <> [].
Proof. repeat apply conj; try reflexivity. discriminate. Qed.

(** C2, amended.  When no charge is retained, [analyzeRevenueTrends]
    returns the success payload with a zero summary, no period data, and
    one insight, the average line with $0.00. *)
Theorem analyzeRevenueTrends_empty
    (LocalTZA : Z -> bool -> Z) (localeCompare : string -> string -> comparison)
    (Date_parse : string -> option Z)
    (charges_list : nat -> ChargeListParams.t -> Result ApiList.t)
    (fuel : nat) (args : RevenueTrends.args)
    (Hempty : retained Date_parse charges_list fuel args = Some (inr [])) :
  analyzeRevenueTrends (num := float) LocalTZA localeCompare Date_parse
    charges_list fuel args
  = Some {| RevenueTrends.summary :=
              {| Summary.totalRevenue := PrimFloat.zero;
                 Summary.transactionCount := 0;
                 Summary.averageTransaction := PrimFloat.zero |};
            RevenueTrends.periodData := [];
            RevenueTrends.insights := ["Average revenue per period: $0.00"];
            RevenueTrends.error := None |}.
Proof.
  rewrite analyzeRevenueTrends_unfold, Hempty. reflexivity.
Qed.

Lemma analyzeRevenueTrends_empty_witness :
  analyzeRevenueTrends (num := float) utcHost codeUnitCompare isoDateParse
    (onePage [newYearCharge "ch_failed" 5000 "failed"]) 1 (january2024 week)
  = Some emptyPayload.
Proof.
  apply (analyzeRevenueTrends_empty utcHost codeUnitCompare isoDateParse
           (onePage [newYearCharge "ch_failed" 5000 "failed"]) 1 (january2024 week)).
  reflexivity.
Defined.

(** ** Double precision *)

(** The rational a finite double denotes. *)
Definition exactValue (x : float) : Q :=
  match Prim2SF x with
  | S754_finite s m e => inject_Z (if s then Zneg m else Zpos m) * Qpower (inject_Z 2) e
  | _ => 0
  end.

(** The integer sum of minor-unit amounts, converted to major units and
    rounded to two decimals in one step. *)
Definition convertOnce {num : Type} `{Number num} (minor : Z) : num :=
  (Math_round (ofZ minor / ofZ 100 * ofZ 100) / ofZ 100)%num.

(** ** Many charges of one period *)

Lemma fold_left_repeat {A B : Type} (f : A -> B -> A) (b : B) (n : nat) :
  forall a, fold_left f (repeat b n) a = Nat.iter n (fun a => f a b) a.
Proof.
  induction n as [|n IH]; intros a; [reflexivity|].
  cbn [repeat fold_left]. rewrite IH. symmetry. apply Nat.iter_succ_r.
Qed.

Section OnePeriod.

Context {num : Type} `{Number num}.
Variable LocalTZA : Z -> bool -> Z.
Variable localeCompare : string -> string -> comparison.

Lemma forEachCharge_repeat groupBy charge k :
  periodKey LocalTZA groupBy charge = inr k ->
  forall n (b : Bucket.t num),
  forEachCharge LocalTZA groupBy (repeat charge n) [(k, b)]
  = inr [(k, Nat.iter n (fun b => addTo b charge) b)].
Proof.
  intros Hkey. induction n as [|n IH]; intros b; [reflexivity|].
  cbn [repeat forEachCharge]. unfold bind at 1. unfold addCharge, bind at 1.
  rewrite Hkey. cbn [JSMap.get JSMap.set ret]. rewrite String.eqb_refl.
  fold (addTo b charge). rewrite IH. now rewrite Nat.iter_succ_r.
Qed.

Lemma iter_addTo charge n : forall b : Bucket.t num,
  Nat.iter n (fun b => addTo b charge) b
  = {| Bucket.revenue :=
         Nat.iter n (fun revenue => (revenue + ofZ (Charge.amount charge) / ofZ 100)%num)
           (Bucket.revenue b);
       Bucket.count := Bucket.count b + Z.of_nat n |}.
Proof.
  induction n as [|n IH]; intros b.
  - cbn [Nat.iter]. destruct b. cbn. f_equal. lia.
  - rewrite !Nat.iter_succ_r, IH. cbn [addTo Bucket.revenue Bucket.count]. f_equal. lia.
Qed.

(** A positive number of copies of one charge gives one bucket: its
    revenue is the running total of the quotients, rounded at output. *)
Lemma groupChargesByPeriod_repeat groupBy charge k n :
  periodKey LocalTZA groupBy charge = inr k ->
  n <> 0%nat ->
  groupChargesByPeriod LocalTZA localeCompare (repeat charge n) groupBy
  = inr [{| PeriodDatum.period := k;
            PeriodDatum.revenue :=
              (Math_round
                 (Nat.iter n (fun revenue => revenue + ofZ (Charge.amount charge) / ofZ 100)
                    (ofZ 0) * ofZ 100) / ofZ 100)%num;
            PeriodDatum.transactionCount := Z.of_nat n |}].
Proof.
  intros Hkey Hn. destruct n as [|n]; [contradiction|].
  unfold groupChargesByPeriod.
  cbn [repeat forEachCharge]. unfold bind at 2. unfold addCharge, bind at 2.
  rewrite Hkey. cbn [JSMap.get JSMap.set ret].
  fold (zeroBucket (num := num)). fold (addTo zeroBucket charge).
  rewrite (forEachCharge_repeat groupBy charge k Hkey), iter_addTo.
  cbn [bind JSMap.entries map toPeriodDatum JSArray.sort JSArray.insert
       addTo zeroBucket Bucket.revenue Bucket.count ret].
  rewrite Nat.iter_succ_r.
  replace (0 + 1 + Z.of_nat n) with (Z.of_nat (S n)) by lia. reflexivity.
Qed.

Lemma summarize_repeat groupBy charge k n :
  periodKey LocalTZA groupBy charge = inr k ->
  n <> 0%nat ->
  exists payload,
    summarize LocalTZA localeCompare (repeat charge n) groupBy = inr payload
    /\ RevenueTrends.periodData payload
       = [{| PeriodDatum.period := k;
             PeriodDatum.revenue :=
               (Math_round
                  (Nat.iter n (fun revenue => revenue + ofZ (Charge.amount charge) / ofZ 100)
                     (ofZ 0) * ofZ 100) / ofZ 100)%num;
             PeriodDatum.transactionCount := Z.of_nat n |}]
    /\ Summary.totalRevenue (RevenueTrends.summary payload)
       = (Nat.iter n (fun sum => sum + ofZ (Charge.amount charge)) (ofZ 0) / ofZ 100)%num
    /\ RevenueTrends.insights payload
       = expectedInsights (RevenueTrends.periodData payload)
           (Summary.totalRevenue (RevenueTrends.summary payload)).
Proof.
  intros Hkey Hn. unfold summarize.
  rewrite (groupChargesByPeriod_repeat groupBy charge k n Hkey Hn).
  cbn [bind]. rewrite generateInsights_expected. cbn [bind ret].
  eexists. split; [reflexivity|].
  cbn [RevenueTrends.periodData RevenueTrends.summary Summary.totalRevenue
       RevenueTrends.insights].
  rewrite fold_left_repeat. repeat apply conj; reflexivity.
Qed.

End OnePeriod.

Lemma iter_to_nat {A : Type} (f : A -> A) (x : A) (p : positive) :
  Nat.iter (Pos.to_nat p) f x = Pos.iter f x p.
Proof. symmetry. apply Pos2Nat.inj_iter. Qed.

Lemma iter_ext {A : Type} (f g : A -> A) (n : nat) :
  (forall a, f a = g a) -> forall x, Nat.iter n f x = Nat.iter n g x.
Proof.
  intros Hfg x. induction n as [|n IH]; [reflexivity|].
  cbn [Nat.iter nat_rect]. unfold Nat.iter in IH. now rewrite IH, Hfg.
Qed.

Lemma filter_repeat {A : Type} (f : A -> bool) (a : A) (n : nat) :
  f a = true -> filter f (repeat a n) = repeat a n.
Proof.
  intros Ha. induction n as [|n IH]; [reflexivity|].
  cbn [repeat filter]. now rewrite Ha, IH.
Qed.

Lemma minorTotal_repeat charge n :
  minorTotal (repeat charge n) = Charge.amount charge * Z.of_nat n.
Proof.
  unfold minorTotal. induction n as [|n IH]; [cbn; lia|].
  cbn [repeat map Zsum fold_right]. fold (Zsum (map Charge.amount (repeat charge n))).
  rewrite IH. lia.
Qed.

(** ** Double precision at the largest amount of a charge *)

(** A charge of 99999999 minor units, the largest amount the ledger
    accepts. *)
Definition maximumCharge : Charge.t := newYearCharge "ch_max" 99999999 "succeeded".

(** 28154 such charges, on one day. *)
Definition maximumCharges : list Charge.t := repeat maximumCharge (Pos.to_nat 28154).

(** What [groupChargesByPeriod] returns for them: one bucket, its revenue
    the double nearest to 28153999718.48. *)
Definition maximumBucket : PeriodDatum.t float :=
  {| PeriodDatum.period := "2024-01-01";
     PeriodDatum.revenue := 0x1.a386fc599eb85p+34%float;
     PeriodDatum.transactionCount := 28154 |}.

(** The total revenue of the summary for them: the double nearest to
    28153999718.46. *)
Definition maximumTotal : float := 0x1.a386fc599d70ap+34%float.

Lemma maximumCharge_constants :
  (ofZ (Charge.amount maximumCharge) / ofZ 100)%num = 0x1.e847ffae147aep+19%float
  /\ (ofZ (Charge.amount maximumCharge) : float) = 99999999%float
  /\ (ofZ 0 : float) = 0%float
  /\ periodKey utcHost day maximumCharge = inr "2024-01-01"
  /\ inPeriod utcHost day "2024-01-01" maximumCharge = true.
Proof. repeat apply conj; vm_compute; reflexivity. Qed.

(** The running total of the quotients, rounded at output. *)
Lemma maximumCharges_running :
  (Math_round
     (Pos.iter (fun revenue => PrimFloat.add revenue 0x1.e847ffae147aep+19%float)
        0%float 28154 * ofZ 100) / ofZ 100)%num
  = PeriodDatum.revenue maximumBucket.
Proof. vm_compute. reflexivity. Qed.

(** The sum of the amounts, divided by 100. *)
Lemma maximumCharges_sum :
  (Pos.iter (fun sum => PrimFloat.add sum 99999999%float) 0%float 28154 / ofZ 100)%num
  = maximumTotal.
Proof. vm_compute. reflexivity. Qed.

Lemma maximumCharges_buckets :
  groupChargesByPeriod utcHost codeUnitCompare maximumCharges day = inr [maximumBucket].
Proof.
  destruct maximumCharge_constants as (Hmajor & _ & Hzero & Hkey & _).
  assert (Hn : Pos.to_nat 28154 <> 0%nat) by (pose proof (Pos2Nat.is_pos 28154); lia).
  unfold maximumCharges.
  rewrite (groupChargesByPeriod_repeat (num := float) utcHost codeUnitCompare day
             maximumCharge "2024-01-01" (Pos.to_nat 28154) Hkey Hn).
  rewrite (iter_ext _ (fun revenue => PrimFloat.add revenue 0x1.e847ffae147aep+19%float))
    by (intros revenue; cbn [num_add Binary64.number]; now rewrite <- Hmajor).
  rewrite iter_to_nat, positive_nat_Z, Hzero, maximumCharges_running. reflexivity.
Qed.

Lemma maximumCharges_summarize :
  exists payload,
    summarize utcHost codeUnitCompare maximumCharges day = inr payload
    /\ RevenueTrends.periodData payload = [maximumBucket]
    /\ Summary.totalRevenue (RevenueTrends.summary payload) = maximumTotal
    /\ RevenueTrends.insights payload = expectedInsights [maximumBucket] maximumTotal.
Proof.
  destruct maximumCharge_constants as (_ & Hminor & Hzero & _ & _).
  assert (Htotal : (fold_left (fun sum charge => sum + ofZ (Charge.amount charge))
                      maximumCharges (ofZ 0) / ofZ 100)%num = maximumTotal).
  { unfold maximumCharges. rewrite fold_left_repeat.
    rewrite (iter_ext _ (fun sum => PrimFloat.add sum 99999999%float))
      by (intros sum; cbn [num_add Binary64.number]; now rewrite <- Hminor).
    rewrite iter_to_nat, Hzero. exact maximumCharges_sum. }
  unfold summarize. rewrite maximumCharges_buckets, Htotal.
  cbn [bind]. rewrite generateInsights_expected. cbn [bind ret].
  eexists. repeat apply conj; reflexivity.
Qed.

(** C3.  The claim fails in double precision, at amounts that a charge can
    have: for 28154 charges of 99999999 minor units on one day, the single
    bucket holds 28153999718.48 while the total revenue of the same payload
    is 28153999718.46, two cents apart with one bucket; the first two
    insights show the two figures side by side. *)
Theorem bucket_two_cents_from_total :
  exists payload,
    summarize (num := float) utcHost codeUnitCompare maximumCharges day = inr payload
    /\ groupChargesByPeriod utcHost codeUnitCompare maximumCharges day
       = inr (RevenueTrends.periodData payload)
    /\ map (fun d => (PeriodDatum.period d, toFixed2 (PeriodDatum.revenue d),
                      PeriodDatum.transactionCount d))
           (RevenueTrends.periodData payload)
       = [("2024-01-01", "28153999718.48", 28154)]
    /\ toFixed2 (Summary.totalRevenue (RevenueTrends.summary payload))
       = "28153999718.46"
    /\ RevenueTrends.insights payload
       = ["Highest revenue period: 2024-01-01 with $28153999718.48";
          "Average revenue per period: $28153999718.46";
          "Processed 28154 successful transactions during this period."]
    /\ ((1 # 100)
        * inject_Z (Z.of_nat (List.length (RevenueTrends.periodData payload)))
        < Qabs (exactValue
                  (fold_left PrimFloat.add
                     (map PeriodDatum.revenue (RevenueTrends.periodData payload))
                     PrimFloat.zero)
                - exactValue (Summary.totalRevenue (RevenueTrends.summary payload))))%Q.
Proof.
  destruct maximumCharges_summarize as (payload & Hrun & Hdata & Htotal & Hinsights).
  exists payload. split; [exact Hrun|].
  rewrite Hinsights, Hdata, Htotal.
  split; [exact maximumCharges_buckets|].
  repeat apply conj; vm_compute; reflexivity.
Qed.

(** C4.  The claim fails at amounts that a charge can have: the bucket of
    28154 charges of 99999999 minor units is their running total in major
    units, rounded at output, 28153999718.48; the integer sum of the
    bucket's amounts, 2815399971846, converted once, is 28153999718.46. *)
Theorem bucket_drifts_from_minor_units :
  groupChargesByPeriod (num := float) utcHost codeUnitCompare maximumCharges day
  = inr [maximumBucket]
  /\ bucketCharges utcHost day (PeriodDatum.period maximumBucket) maximumCharges
     = maximumCharges
  /\ minorTotal maximumCharges = 2815399971846
  /\ toFixed2 (PeriodDatum.revenue maximumBucket) = "28153999718.48"
  /\ toFixed2 (convertOnce (num := float) 2815399971846) = "28153999718.46"
  /\ PeriodDatum.revenue maximumBucket <> convertOnce 2815399971846.
Proof.
  split; [exact maximumCharges_buckets|]. split; [|split].
  - apply filter_repeat. apply maximumCharge_constants.
  - unfold maximumCharges. rewrite minorTotal_repeat, positive_nat_Z. reflexivity.
  - repeat apply conj; try (vm_compute; reflexivity).
    intros Heq. apply (f_equal Prim2SF) in Heq. vm_compute in Heq. discriminate.
Qed.

(** ** The theorems at concrete inputs *)

(** The specification's example in double precision. *)
Definition examplePayload : RevenueTrends.t float :=
  match summarize utcHost codeUnitCompare exampleCharges day with
  | inr payload => payload
  | inl e => failurePayload (errorMessage e)
  end.

(** Two buckets tie at 45.00; the earlier one is reported. *)
Definition bucketOf {num : Type} `{Number num}
    (period : string) (minor count : Z) : PeriodDatum.t num :=
  {| PeriodDatum.period := period;
     PeriodDatum.revenue := (ofZ minor / ofZ 100)%num;
     PeriodDatum.transactionCount := count |}.

Lemma generateInsights_tie_break_witness :
  exists rest,
    generateInsights (num := float)
      ([bucketOf "2024-01-01" 1000 1]
       ++ bucketOf "2024-01-02" 4500 3
       :: [bucketOf "2024-01-03" 4500 2; bucketOf "2024-01-04" 2000 1])
      (ofZ 120)
    = inr (("Highest revenue period: " +++ "2024-01-02"
            +++ " with $" +++ toFixed2 (ofZ 4500 / ofZ 100)%num) :: rest).
Proof.
  apply (generateInsights_tie_break (num := float)
           [bucketOf "2024-01-01" 1000 1]
           [bucketOf "2024-01-03" 4500 2; bucketOf "2024-01-04" 2000 1]
           (bucketOf "2024-01-02" 4500 3)).
  - repeat constructor.
  - repeat constructor; vm_compute; discriminate.
Defined.

(** The same tie in double precision. *)
Example tie_break_binary64 :
  generateInsights (num := float)
    [bucketOf "2024-01-01" 1000 1; bucketOf "2024-01-02" 4500 3;
     bucketOf "2024-01-03" 4500 2; bucketOf "2024-01-04" 2000 1]
    (ofZ 120)
  = inr ["Highest revenue period: 2024-01-02 with $45.00";
         "Lowest revenue period: 2024-01-01 with $10.00";
         "Average revenue per period: $30.00";
         "Processed 7 successful transactions during this period."].
Proof. vm_compute. reflexivity. Qed.

(** Two ledgers that differ in a failed charge only. *)
Definition ledgerA : nat -> ChargeListParams.t -> Result ApiList.t :=
  onePage (exampleCharges ++ [newYearCharge "ch_4" 999999 "failed"]).

Definition ledgerB : nat -> ChargeListParams.t -> Result ApiList.t :=
  onePage (newYearCharge "ch_0" 1 "pending" :: exampleCharges).

Lemma analyzeRevenueTrends_only_succeeded_witness :
  analyzeRevenueTrends (num := float) utcHost codeUnitCompare isoDateParse
    ledgerA 1 (january2024 day)
  = analyzeRevenueTrends utcHost codeUnitCompare isoDateParse
      ledgerB 1 (january2024 day)
  /\ forall charges,
       retained isoDateParse ledgerA 1 (january2024 day) = Some (inr charges) ->
       Forall (fun c => Charge.status c = "succeeded") charges.
Proof.
  apply (analyzeRevenueTrends_only_succeeded (num := float) utcHost codeUnitCompare
           isoDateParse ledgerA ledgerB 1 (january2024 day)).
  intros n params. reflexivity.
Defined.

(** A ledger whose second request fails. *)
Definition failingLedger : nat -> ChargeListParams.t -> Result ApiList.t :=
  fun n _ =>
    match n with
    | O => inr {| ApiList.data := exampleCharges; ApiList.has_more := true |}
    | _ => inl (ErrorObject "Request timed out")
    end.


Example failingLedger_payload :
  option_map
    (fun p => (toFixed2 (Summary.totalRevenue (RevenueTrends.summary p)),
               Summary.transactionCount (RevenueTrends.summary p),
               RevenueTrends.periodData p, RevenueTrends.insights p,
               RevenueTrends.error p))
    (analyzeRevenueTrends (num := float) utcHost codeUnitCompare isoDateParse
       failingLedger 2 (january2024 day))
  = Some ("0.00", 0, [], [],
          Some "Failed to analyze revenue trends: Request timed out").
Proof. vm_compute. reflexivity. Qed.


(** The ledger confirms its own amount; the result follows the ledger. *)
Example issueRefund_confirmed :
  issueRefund (num := float)
    (fun request => inr {| Refund.amount := 1250 |})
    {| RefundResult.paymentIntentId := "pi_1";
       RefundResult.amount := (ofZ 1999 / ofZ 100)%num |}
  = {| RefundResult.status := "success";
       RefundResult.amountRefunded := (ofZ 125 / ofZ 10)%num;
       RefundResult.error := None |}
  /\ toFixed2 (Math_round ((ofZ 1999 / ofZ 100) * ofZ 100)%num) = "1999.00".
Proof. split; vm_compute; reflexivity. Qed.

Example issueRefund_rejected :
  issueRefund (num := float)
    (fun request => inl (ErrorObject "Refund amount exceeds the charge"))
    {| RefundResult.paymentIntentId := "pi_1";
       RefundResult.amount := ofZ 500 |}
  = {| RefundResult.status := "error";
       RefundResult.amountRefunded := PrimFloat.zero;
       RefundResult.error :=
         Some "Failed to issue refund: Refund amount exceeds the charge" |}.
Proof. vm_compute. reflexivity. Qed.

(** * Further properties of the service *)

(** ** Which periods are reported, and when bucketing throws *)

Lemma get_Some_In {V : Type} (m : JSMap.t V) k v :
  JSMap.get k m = Some v -> In (k, v) m.
Proof.
  induction m as [|[k0 v0] m IH]; simpl; intros Hg.
  - discriminate.
  - destruct (String.eqb k k0) eqn:E.
    + apply String.eqb_eq in E; subst k0. inversion Hg; subst. now left.
    + right. now apply IH.
Qed.

Section Periods.

Context {num : Type} `{Number num}.
Variable LocalTZA : Z -> bool -> Z.
Variable localeCompare : string -> string -> comparison.

(** A key is in the map once a charge of that period has been processed. *)
Lemma forEachCharge_key groupBy charges m' charge k :
  forEachCharge LocalTZA groupBy charges [] = inr m' ->
  In charge charges ->
  periodKey LocalTZA groupBy charge = inr k ->
  In k (map fst m').
Proof.
  intros Hrun Hin Hkey.
  pose proof (forEachCharge_get LocalTZA groupBy charges [] m' Hrun k) as Hget.
  rewrite fold_step in Hget. simpl in Hget.
  assert (Hb : In charge (bucketCharges LocalTZA groupBy k charges)).
  { apply filter_In. split; [exact Hin|].
    unfold inPeriod. rewrite Hkey. apply String.eqb_refl. }
  destruct (bucketCharges LocalTZA groupBy k charges) as [|c0 cs0]; [contradiction|].
  apply get_Some_In in Hget. now apply (in_map fst) in Hget.
Qed.

(** The loop over the charges stops at the first charge whose key throws. *)
Lemma forEachCharge_throws groupBy e : forall charges m,
  (exists before charge after,
     charges = before ++ charge :: after
     /\ Forall (fun c => exists k, periodKey LocalTZA groupBy c = inr k) before
     /\ periodKey LocalTZA groupBy charge = inl e) ->
  forEachCharge LocalTZA groupBy charges m = inl e.
Proof.
  intros charges m (before & charge & after & -> & Hbefore & Hthrow).
  revert m. induction Hbefore as [|c before [k Hk] _ IH]; intros m.
  - cbn [app forEachCharge]. unfold bind, addCharge. now rewrite Hthrow.
  - cbn [app forEachCharge]. unfold bind at 1. unfold addCharge, bind at 1.
    rewrite Hk. cbn. apply IH.
Qed.

Lemma forEachCharge_returns groupBy : forall charges m,
  Forall (fun c => exists k, periodKey LocalTZA groupBy c = inr k) charges ->
  exists m', forEachCharge LocalTZA groupBy charges m = inr m'.
Proof.
  induction charges as [|c cs IH]; intros m Hall.
  - now exists m.
  - inversion Hall as [|? ? [k Hk] Hrest]; subst.
    cbn [forEachCharge]. unfold bind at 1. unfold addCharge, bind at 1.
    rewrite Hk. cbn. apply IH. exact Hrest.
Qed.

(** X1. No gap filling and no lost period: a label is reported exactly when
    some charge has that key, and every reported bucket counts at least one
    transaction. *)
Theorem groupChargesByPeriod_periods
    (charges : list Charge.t) (groupBy : GroupBy)
    (periodData : list (PeriodDatum.t num))
    (Hrun : groupChargesByPeriod LocalTZA localeCompare charges groupBy
            = inr periodData) :
  (forall k,
     In k (map PeriodDatum.period periodData)
     <-> exists charge,
           In charge charges /\ periodKey LocalTZA groupBy charge = inr k)
  /\ Forall (fun d => 1 <= PeriodDatum.transactionCount d) periodData.
Proof.
  destruct (groupChargesByPeriod_inr _ _ _ _ _ Hrun) as (m & Hm & Hperm).
  split.
  - intros k. split.
    + intros Hin. apply in_map_iff in Hin as (d & <- & Hd).
      destruct (groupChargesByPeriod_bucket _ _ _ _ _ _ Hrun Hd) as (Hne & _ & _).
      destruct (bucketCharges LocalTZA groupBy (PeriodDatum.period d) charges)
        as [|c cs] eqn:Hb; [contradiction|].
      assert (Hc : In c (bucketCharges LocalTZA groupBy (PeriodDatum.period d) charges))
        by (rewrite Hb; now left).
      apply filter_In in Hc as [Hc Hk]. exists c. split; [exact Hc|].
      unfold inPeriod in Hk.
      destruct (periodKey LocalTZA groupBy c) as [e|k']; [discriminate|].
      apply String.eqb_eq in Hk. now subst.
    + intros (charge & Hin & Hkey).
      apply (Permutation_in _ (Permutation_sym (Permutation_map PeriodDatum.period Hperm))).
      rewrite period_toPeriodDatum.
      eapply forEachCharge_key; eassumption.
  - apply Forall_forall. intros d Hd.
    destruct (groupChargesByPeriod_bucket _ _ _ _ _ _ Hrun Hd) as (Hne & _ & Hcount).
    rewrite Hcount.
    destruct (bucketCharges LocalTZA groupBy (PeriodDatum.period d) charges);
      [contradiction|]. cbn [List.length]. lia.
Qed.

End Periods.

(** A creation time that [new Date(created * 1000)] accepts. *)
Definition validTime (charge : Charge.t) : bool :=
  Z.abs (Charge.created charge * 1000) <=? 8640000000000000.

Lemma ofNumber_valid charge :
  JSDate.ofNumber (Charge.created charge * 1000)
  = if validTime charge then Some (Charge.created charge * 1000) else None.
Proof.
  unfold JSDate.ofNumber, JSDate.TimeClip, validTime.
  rewrite Z.gtb_ltb.
  destruct (Z.ltb_spec 8640000000000000 (Z.abs (Charge.created charge * 1000))),
           (Z.leb_spec (Z.abs (Charge.created charge * 1000)) 8640000000000000);
    try reflexivity; lia.
Qed.

Section Throws.

Context {num : Type} `{Number num}.
Variable LocalTZA : Z -> bool -> Z.
Variable localeCompare : string -> string -> comparison.

(** The only exception of the key computation is the RangeError of
    [toISOString]. *)
Lemma periodKey_inl groupBy charge e :
  periodKey LocalTZA groupBy charge = inl e -> e = invalidTimeValue.
Proof.
  unfold periodKey. destruct groupBy.
  - destruct (JSDate.toISODate _); intros Hk; inversion Hk; reflexivity.
  - destruct (JSDate.toISODate _); intros Hk; inversion Hk; reflexivity.
  - unfold JSDate.getFullYear, JSDate.getMonth.
    destruct (JSDate.ofNumber _); discriminate.
Qed.

Lemma periodKey_invalid groupBy charge :
  validTime charge = false ->
  periodKey LocalTZA groupBy charge
  = match groupBy with
    | month => inr "NaN-NaN"
    | _ => inl invalidTimeValue
    end.
Proof.
  intros Hinvalid. unfold periodKey. rewrite ofNumber_valid, Hinvalid.
  destruct groupBy; reflexivity.
Qed.

Lemma periodKey_day_valid charge :
  validTime charge = true -> exists k, periodKey LocalTZA day charge = inr k.
Proof.
  intros Hvalid. unfold periodKey. rewrite ofNumber_valid, Hvalid.
  cbn [JSDate.toISODate]. eexists. reflexivity.
Qed.

Lemma periodKey_month_returns charge :
  exists k, periodKey LocalTZA month charge = inr k.
Proof.
  unfold periodKey, JSDate.getFullYear, JSDate.getMonth.
  destruct (JSDate.ofNumber _); eexists; reflexivity.
Qed.

(** The first charge whose key throws. *)
Lemma first_throw groupBy : forall charges,
  Exists (fun c => exists e, periodKey LocalTZA groupBy c = inl e) charges ->
  exists before charge after e,
    charges = before ++ charge :: after
    /\ Forall (fun c => exists k, periodKey LocalTZA groupBy c = inr k) before
    /\ periodKey LocalTZA groupBy charge = inl e.
Proof.
  induction charges as [|c cs IH]; intros Hex.
  - inversion Hex.
  - destruct (periodKey LocalTZA groupBy c) as [e|k] eqn:Hk.
    + exists [], c, cs, e. repeat split; [constructor | exact Hk].
    + inversion Hex as [? ? [e He]|? ? Hrest]; subst; [congruence|].
      destruct (IH Hrest) as (before & charge & after & e & -> & Hbefore & Hthrow).
      exists (c :: before), charge, after, e. repeat split; [|exact Hthrow].
      constructor; [now exists k | exact Hbefore].
Qed.

Lemma groupChargesByPeriod_returns charges groupBy :
  Forall (fun c => exists k, periodKey LocalTZA groupBy c = inr k) charges ->
  exists periodData : list (PeriodDatum.t num),
    groupChargesByPeriod LocalTZA localeCompare charges groupBy = inr periodData.
Proof.
  intros Hall. unfold groupChargesByPeriod, bind.
  destruct (forEachCharge_returns LocalTZA groupBy charges [] Hall) as [m' Hm].
  rewrite Hm. eexists. reflexivity.
Qed.

(** X2. The bucketer throws nothing but the RangeError "Invalid time
    value"; grouped by month it never throws, and a charge whose creation
    time is out of range then lands in a bucket labelled "NaN-NaN". *)
Theorem groupChargesByPeriod_month_total (charges : list Charge.t) :
  (forall groupBy e,
     groupChargesByPeriod (num := num) LocalTZA localeCompare charges groupBy = inl e ->
     e = invalidTimeValue)
  /\ exists periodData : list (PeriodDatum.t num),
       groupChargesByPeriod LocalTZA localeCompare charges month = inr periodData
       /\ (Exists (fun c => validTime c = false) charges ->
           In "NaN-NaN" (map PeriodDatum.period periodData)).
Proof.
  split.
  - intros groupBy e Hrun. unfold groupChargesByPeriod, bind in Hrun.
    destruct (forEachCharge LocalTZA groupBy charges []) as [e'|m] eqn:Hm;
      [|discriminate].
    inversion Hrun; subst e'. clear Hrun.
    assert (Hgen : forall cs (m0 : JSMap.t (Bucket.t num)),
               forEachCharge LocalTZA groupBy cs m0 = inl e -> e = invalidTimeValue).
    { induction cs as [|c cs IH]; intros m0 Hr; [discriminate|].
      cbn [forEachCharge] in Hr. unfold bind at 1 in Hr.
      unfold addCharge, bind at 1 in Hr.
      destruct (periodKey LocalTZA groupBy c) as [e0|k] eqn:Hk.
      - inversion Hr; subst. eapply periodKey_inl; eassumption.
      - cbn in Hr. eapply IH; eassumption. }
    eapply Hgen; eassumption.
  - destruct (groupChargesByPeriod_returns charges month) as [periodData Hrun].
    { apply Forall_forall. intros c _. apply periodKey_month_returns. }
    exists periodData. split; [exact Hrun|].
    intros Hex. apply Exists_exists in Hex as (c & Hin & Hinvalid).
    destruct (groupChargesByPeriod_inr _ _ _ _ _ Hrun) as (m & Hm & Hperm).
    apply (Permutation_in _ (Permutation_sym (Permutation_map PeriodDatum.period Hperm))).
    rewrite period_toPeriodDatum.
    eapply forEachCharge_key; [exact Hm | exact Hin|].
    now rewrite periodKey_invalid.
Qed.

(** X3. Grouped by day or week, one charge with a creation time out of
    range makes the bucketer throw, whatever the other charges are; grouped
    by day, it returns whenever every creation time is in range. *)
Theorem groupChargesByPeriod_invalid_time (charges : list Charge.t) :
  (forall groupBy,
     groupBy <> month ->
     Exists (fun c => validTime c = false) charges ->
     groupChargesByPeriod (num := num) LocalTZA localeCompare charges groupBy
     = inl invalidTimeValue)
  /\ (Forall (fun c => validTime c = true) charges ->
      exists periodData : list (PeriodDatum.t num),
        groupChargesByPeriod LocalTZA localeCompare charges day = inr periodData).
Proof.
  split.
  - intros groupBy Hg Hex.
    destruct (first_throw groupBy charges) as (before & c & after & e & -> & Hb & Ht).
    { eapply Exists_impl; [|exact Hex]. intros c Hc. cbn beta in Hc.
      exists invalidTimeValue. rewrite periodKey_invalid by exact Hc.
      destruct groupBy; [reflexivity | reflexivity | contradiction]. }
    pose proof (periodKey_inl _ _ _ Ht) as ->.
    unfold groupChargesByPeriod, bind.
    rewrite (forEachCharge_throws LocalTZA groupBy invalidTimeValue); [reflexivity|].
    now exists before, c, after.
  - intros Hall. apply groupChargesByPeriod_returns.
    eapply Forall_impl; [|exact Hall]. intros c Hc. now apply periodKey_day_valid.
Qed.

End Throws.

(** ** Week labels on a UTC host *)

Lemma Day_shift t k : JSDate.Day (t + k * JSDate.msPerDay) = JSDate.Day t + k.
Proof. unfold JSDate.Day. apply Z.div_add. discriminate. Qed.

(** X4. On a host whose local time is UTC, every week label is the date of
    a Monday: of the Monday on or before the charge from Monday to
    Saturday, of the following Monday on a Sunday.  The labelled day is at
    most five days before and one day after the charge. *)
Theorem weekKey_utc_is_monday (charge : Charge.t)
    (Hrange : Z.abs (Charge.created charge) <= 8639999000000) :
  exists weekStart k,
    periodKey utcHost week charge = inr k
    /\ JSDate.toISODate (Some weekStart) = Some k
    /\ JSDate.WeekDay weekStart = 1
    /\ Charge.created charge * 1000 - 5 * JSDate.msPerDay
       <= weekStart <= Charge.created charge * 1000 + JSDate.msPerDay.
Proof.
  set (t := Charge.created charge * 1000).
  assert (Hw : 0 <= JSDate.WeekDay t < 7)
    by (unfold JSDate.WeekDay; apply Z.mod_pos_bound; lia).
  assert (Hms : JSDate.msPerDay = 86400000) by reflexivity.
  exists (t + (1 - JSDate.WeekDay t) * JSDate.msPerDay).
  pose proof (weekKey_utc charge) as Hkey. cbv zeta in Hkey. fold t in Hkey.
  rewrite Hkey by (unfold t; lia).
  assert (Hclip : JSDate.TimeClip (t + (1 - JSDate.WeekDay t) * JSDate.msPerDay)
                  = Some (t + (1 - JSDate.WeekDay t) * JSDate.msPerDay)).
  { unfold JSDate.TimeClip. rewrite Z.gtb_ltb.
    destruct (Z.ltb_spec 8640000000000000
                (Z.abs (t + (1 - JSDate.WeekDay t) * JSDate.msPerDay)));
      [|reflexivity].
    unfold t, JSDate.msPerDay in *. lia. }
  rewrite Hclip. cbn [JSDate.toISODate]. eexists. split; [reflexivity|].
  split; [reflexivity|]. split.
  - unfold JSDate.WeekDay at 1. rewrite Day_shift.
    unfold JSDate.WeekDay in *.
    set (d := JSDate.Day t) in *.
    replace (d + (1 - (d + 4) mod 7) + 4) with (1 + (d + 4 - (d + 4) mod 7)) by ring.
    pose proof (Z.div_mod (d + 4) 7 ltac:(lia)) as Hdm.
    replace (d + 4 - (d + 4) mod 7) with ((d + 4) / 7 * 7) by lia.
    rewrite Z.mod_add by lia. reflexivity.
  - unfold t, JSDate.msPerDay in *. lia.
Qed.

Lemma weekKey_utc_is_monday_witness :
  exists weekStart k,
    periodKey utcHost week sundayCharge = inr k
    /\ JSDate.toISODate (Some weekStart) = Some k
    /\ JSDate.WeekDay weekStart = 1
    /\ Charge.created sundayCharge * 1000 - 5 * JSDate.msPerDay
       <= weekStart <= Charge.created sundayCharge * 1000 + JSDate.msPerDay.
Proof.
  apply (weekKey_utc_is_monday sundayCharge). vm_compute. discriminate.
Defined.

(** ** The requests of the pagination loop *)

Section Requests.

Context {num : Type} `{Number num}.
Variable LocalTZA : Z -> bool -> Z.
Variable localeCompare : string -> string -> comparison.
Variable Date_parse : string -> option Z.

Lemma fetchCharges_requests charges_list charges_list' startTimestamp endTimestamp :
  (forall n cursor,
     charges_list n {| ChargeListParams.gte := startTimestamp;
                       ChargeListParams.lte := endTimestamp;
                       ChargeListParams.limit := 100;
                       ChargeListParams.starting_after := cursor |}
     = charges_list' n {| ChargeListParams.gte := startTimestamp;
                          ChargeListParams.lte := endTimestamp;
                          ChargeListParams.limit := 100;
                          ChargeListParams.starting_after := cursor |}) ->
  forall fuel calls charges startingAfter,
    fetchCharges charges_list fuel startTimestamp endTimestamp calls charges startingAfter
    = fetchCharges charges_list' fuel startTimestamp endTimestamp calls charges startingAfter.
Proof.
  intros Hsame. induction fuel as [|fuel IH]; intros calls charges startingAfter.
  - reflexivity.
  - cbn [fetchCharges]. rewrite <- Hsame.
    destruct (charges_list calls _) as [e|page]; [reflexivity|].
    destruct (ApiList.has_more page); [apply IH | reflexivity].
Qed.

Lemma fetchCharges_unbounded charges_list startTimestamp endTimestamp :
  (forall n params, exists page,
     charges_list n params = inr page /\ ApiList.has_more page = true) ->
  forall fuel calls charges startingAfter,
    fetchCharges charges_list fuel startTimestamp endTimestamp calls charges startingAfter
    = None.
Proof.
  intros Hmore. induction fuel as [|fuel IH]; intros calls charges startingAfter.
  - reflexivity.
  - cbn [fetchCharges].
    match goal with |- context [charges_list calls ?p] =>
      destruct (Hmore calls p) as (page & -> & ->) end.
    apply IH.
Qed.

(** X5. Every request of [analyzeRevenueTrends] carries the same creation
    range, [gte] and [lte] being the whole seconds of the parsed start and
    end dates, and the limit 100: the payload depends on the ledger only
    through its answers to such requests. *)
Theorem analyzeRevenueTrends_requests
    (charges_list charges_list' : nat -> ChargeListParams.t -> Result ApiList.t)
    (fuel : nat) (args : RevenueTrends.args)
    (Hsame : forall n cursor,
        let request :=
          {| ChargeListParams.gte :=
               option_map (fun ms => ms / 1000) (Date_parse (RevenueTrends.startDate args));
             ChargeListParams.lte :=
               option_map (fun ms => ms / 1000) (Date_parse (RevenueTrends.endDate args));
             ChargeListParams.limit := 100;
             ChargeListParams.starting_after := cursor |} in
        charges_list n request = charges_list' n request) :
  analyzeRevenueTrends (num := num) LocalTZA localeCompare Date_parse
    charges_list fuel args
  = analyzeRevenueTrends LocalTZA localeCompare Date_parse charges_list' fuel args.
Proof.
  unfold analyzeRevenueTrends.
  now rewrite (fetchCharges_requests charges_list charges_list' _ _ Hsame).
Qed.

(** X6. The loop has no bound of its own on the number of pages: against a
    ledger that announces more on every page it is still running after any
    number of requests, and [analyzeRevenueTrends] returns nothing. *)
Theorem analyzeRevenueTrends_unbounded
    (charges_list : nat -> ChargeListParams.t -> Result ApiList.t)
    (args : RevenueTrends.args)
    (Hmore : forall n params, exists page,
        charges_list n params = inr page /\ ApiList.has_more page = true)
    (fuel : nat) :
  analyzeRevenueTrends (num := num) LocalTZA localeCompare Date_parse
    charges_list fuel args
  = None.
Proof.
  unfold analyzeRevenueTrends.
  now rewrite (fetchCharges_unbounded charges_list _ _ Hmore).
Qed.

End Requests.

(** ** Sorted results *)

Section SortedFacts.

Context {A : Type} (comparefn : A -> A -> comparison).

(** [x] may stand before [y]. *)
Definition precedes (x y : A) : Prop := comparefn x y <> Gt.

(** The comparator is a consistent order: never [Gt] both ways, and
    transitive. *)
Hypothesis comparefn_asym : forall x y, comparefn x y = Gt -> comparefn y x <> Gt.
Hypothesis comparefn_trans : forall x y z, precedes x y -> precedes y z -> precedes x z.

Lemma insert_StronglySorted x l :
  StronglySorted precedes l -> StronglySorted precedes (JSArray.insert comparefn x l).
Proof.
  induction 1 as [|y l Hsorted IH Hall]; cbn [JSArray.insert].
  - constructor; constructor.
  - destruct (comparefn x y) eqn:Hc.
    + constructor; [now constructor|].
      constructor; [unfold precedes; congruence|].
      eapply Forall_impl; [|exact Hall]. intros z Hz.
      apply (comparefn_trans x y z); [unfold precedes; congruence | exact Hz].
    + constructor; [now constructor|].
      constructor; [unfold precedes; congruence|].
      eapply Forall_impl; [|exact Hall]. intros z Hz.
      apply (comparefn_trans x y z); [unfold precedes; congruence | exact Hz].
    + constructor; [exact IH|].
      apply Forall_forall. intros z Hz.
      apply (Permutation_in _ (insert_Permutation comparefn x l)) in Hz.
      destruct Hz as [<-|Hz]; [now apply comparefn_asym|].
      rewrite Forall_forall in Hall. now apply Hall.
Qed.

Lemma sort_StronglySorted l : StronglySorted precedes (JSArray.sort comparefn l).
Proof.
  induction l as [|x l IH]; cbn [JSArray.sort].
  - constructor.
  - now apply insert_StronglySorted.
Qed.

Lemma StronglySorted_last l : forall worst,
  StronglySorted precedes l -> JSArray.last l = Some worst ->
  In worst l /\ forall x, In x l -> x = worst \/ precedes x worst.
Proof.
  induction l as [|y l IH]; intros worst Hsorted Hlast; [discriminate|].
  apply StronglySorted_inv in Hsorted as [Hsorted Hall].
  destruct l as [|z l'].
  - inversion Hlast; subst. split; [now left|]. intros x [<-|[]]. now left.
  - change (JSArray.last (y :: z :: l')) with (JSArray.last (z :: l')) in Hlast.
    destruct (IH worst Hsorted Hlast) as [Hin Hle]. split; [now right|].
    intros x [<-|Hx].
    + right. rewrite Forall_forall in Hall. now apply Hall.
    + now apply Hle.
Qed.

End SortedFacts.

(** Code units compare transitively. *)
Lemma String_compare_trans : forall x y z : string,
  String.compare x y <> Gt -> String.compare y z <> Gt -> String.compare x z <> Gt.
Proof.
  induction x as [|a x IH]; intros [|b y] [|c z]; cbn [String.compare];
    try congruence.
  unfold Ascii.compare.
  destruct (N.compare_spec (N_of_ascii a) (N_of_ascii b)) as [Hab|Hab|Hab],
           (N.compare_spec (N_of_ascii b) (N_of_ascii c)) as [Hbc|Hbc|Hbc],
           (N.compare_spec (N_of_ascii a) (N_of_ascii c)) as [Hac|Hac|Hac];
    try congruence; try lia.
  apply IH.
Qed.

Lemma String_compare_asym (x y : string) :
  String.compare x y = Gt -> String.compare y x <> Gt.
Proof.
  intros Hgt. rewrite String.compare_antisym, Hgt. discriminate.
Qed.

Section SortedOutput.

Context {num : Type} `{Number num}.
Variable LocalTZA : Z -> bool -> Z.
Variable localeCompare : string -> string -> comparison.

(** X7. When the host's collation is a consistent order, the buckets are
    returned in ascending order of their labels: no bucket is followed,
    anywhere later in the list, by one whose label sorts before its own. *)
Theorem groupChargesByPeriod_sorted
    (charges : list Charge.t) (groupBy : GroupBy)
    (periodData : list (PeriodDatum.t num))
    (Hasym : forall x y, localeCompare x y = Gt -> localeCompare y x <> Gt)
    (Htrans : forall x y z,
        localeCompare x y <> Gt -> localeCompare y z <> Gt -> localeCompare x z <> Gt)
    (Hrun : groupChargesByPeriod LocalTZA localeCompare charges groupBy
            = inr periodData) :
  StronglySorted
    (fun a b => localeCompare (PeriodDatum.period a) (PeriodDatum.period b) <> Gt)
    periodData.
Proof.
  unfold groupChargesByPeriod, bind in Hrun.
  destruct (forEachCharge LocalTZA groupBy charges []) as [e|m]; [discriminate|].
  inversion Hrun; subst periodData.
  apply (sort_StronglySorted
           (fun a b => localeCompare (PeriodDatum.period a) (PeriodDatum.period b))).
  - intros x y. apply Hasym.
  - intros x y z. apply Htrans.
Qed.

End SortedOutput.

(** ** The extremes named by the insights *)

Section SortedOn.

Context {A : Type} (comparefn : A -> A -> comparison) (P : A -> Prop).

(** The comparator is a consistent order on the elements at hand. *)
Hypothesis asym_on : forall x y, P x -> P y -> comparefn x y = Gt -> comparefn y x <> Gt.
Hypothesis trans_on : forall x y z, P x -> P y -> P z ->
  precedes comparefn x y -> precedes comparefn y z -> precedes comparefn x z.

Lemma insert_StronglySorted_on x l :
  P x -> Forall P l ->
  StronglySorted (precedes comparefn) l ->
  StronglySorted (precedes comparefn) (JSArray.insert comparefn x l).
Proof.
  intros Hx Hl Hsorted. induction Hsorted as [|y l Hsorted IH Hall]; cbn [JSArray.insert].
  - constructor; constructor.
  - inversion Hl as [|? ? Hy Hl']; subst.
    assert (Hrest : comparefn x y <> Gt -> Forall (precedes comparefn x) l).
    { intros Hxy. apply Forall_forall. intros z Hz.
      rewrite Forall_forall in Hall, Hl'.
      apply (trans_on x y z); auto. }
    destruct (comparefn x y) eqn:Hc.
    + constructor; [now constructor|].
      constructor; [unfold precedes; congruence|]. apply Hrest. discriminate.
    + constructor; [now constructor|].
      constructor; [unfold precedes; congruence|]. apply Hrest. discriminate.
    + constructor; [now apply IH|].
      apply Forall_forall. intros z Hz.
      apply (Permutation_in _ (insert_Permutation comparefn x l)) in Hz.
      destruct Hz as [<-|Hz]; [now apply asym_on|].
      rewrite Forall_forall in Hall. now apply Hall.
Qed.

Lemma sort_StronglySorted_on l :
  Forall P l -> StronglySorted (precedes comparefn) (JSArray.sort comparefn l).
Proof.
  induction l as [|x l IH]; intros Hl; cbn [JSArray.sort]; [constructor|].
  inversion Hl as [|? ? Hx Hl']; subst.
  apply insert_StronglySorted_on; [exact Hx| |now apply IH].
  eapply Permutation_Forall; [|exact Hl'].
  apply Permutation_sym, sort_Permutation.
Qed.

End SortedOn.

Section Extremes.

Context {num : Type} `{Number num}.

(** X8. When the sign of the difference of two revenues orders the buckets
    at hand consistently, the first insight names a bucket that no bucket
    exceeds and, with two buckets or more, the second names a bucket that
    exceeds no bucket, as the comparator of the sort reads the differences
    of their revenues. *)
Theorem generateInsights_extremes
    (periodData : list (PeriodDatum.t num)) (totalRevenue : num)
    (Hnonempty : periodData <> [])
    (Hasym : forall a b, In a periodData -> In b periodData ->
        byRevenueDesc a b = Gt -> byRevenueDesc b a <> Gt)
    (Htrans : forall a b c, In a periodData -> In b periodData -> In c periodData ->
        byRevenueDesc a b <> Gt -> byRevenueDesc b c <> Gt -> byRevenueDesc a c <> Gt) :
  exists best worst rest,
    In best periodData /\ In worst periodData
    /\ (forall d, In d periodData ->
          byRevenueDesc best d <> Gt /\ byRevenueDesc d worst <> Gt)
    /\ generateInsights periodData totalRevenue
       = inr (highestLine best
              :: (if (2 <=? List.length periodData)%nat then [lowestLine worst] else [])
              ++ rest).
Proof.
  rewrite generateInsights_expected. unfold expectedInsights, bestPart, worstPart.
  assert (Hrefl : forall d, In d periodData -> byRevenueDesc d d <> Gt).
  { intros d Hd Hgt. exact (Hasym d d Hd Hd Hgt Hgt). }
  pose proof (sort_StronglySorted_on byRevenueDesc (fun d => In d periodData)
                Hasym Htrans periodData (proj2 (Forall_forall _ _) (fun d Hd => Hd)))
    as Hsorted.
  pose proof (sort_Permutation byRevenueDesc periodData) as Hperm.
  destruct periodData as [|d0 l]; [contradiction|].
  destruct (sorted_nonempty d0 l) as (best & sorted & worst & Hs & Hw).
  destruct (StronglySorted_last byRevenueDesc _ worst Hsorted Hw) as [Hwin Hwle].
  rewrite Hw, Hs in *. cbn [hd_error optLine].
  exists best, worst. eexists.
  split; [apply (Permutation_in _ Hperm); now left|].
  assert (Hworst : In worst (d0 :: l)) by now apply (Permutation_in _ Hperm).
  split; [exact Hworst|].
  split.
  - intros d Hd. pose proof Hd as Hd'.
    apply (Permutation_in _ (Permutation_sym Hperm)) in Hd.
    split.
    + apply StronglySorted_inv in Hsorted as [_ Hall].
      destruct Hd as [<-|Hd]; [now apply Hrefl|].
      rewrite Forall_forall in Hall. now apply Hall.
    + destruct (Hwle d Hd) as [->|Hp]; [now apply Hrefl|exact Hp].
  - cbn [app]. destruct (2 <=? _)%nat; reflexivity.
Qed.

End Extremes.

(** ** The further properties at concrete inputs *)

(** The buckets of the specification's example, grouped by day. *)
Definition exampleBuckets : list (PeriodDatum.t float) :=
  RevenueTrends.periodData examplePayload.

Lemma groupChargesByPeriod_periods_witness :
  (forall k,
     In k (map PeriodDatum.period exampleBuckets)
     <-> exists charge,
           In charge exampleCharges /\ periodKey utcHost day charge = inr k)
  /\ Forall (fun d => 1 <= PeriodDatum.transactionCount d) exampleBuckets.
Proof.
  apply (groupChargesByPeriod_periods (num := float) utcHost codeUnitCompare
           exampleCharges day exampleBuckets).
  vm_compute. reflexivity.
Defined.

(** Charges of three different days, the latest first. *)
Definition threeDays : list Charge.t :=
  [{| Charge.id := "ch_c"; Charge.amount := 300;
      Charge.created := 1704240000; Charge.status := "succeeded" |};
   {| Charge.id := "ch_a"; Charge.amount := 100;
      Charge.created := 1704067200; Charge.status := "succeeded" |};
   {| Charge.id := "ch_b"; Charge.amount := 200;
      Charge.created := 1704153600; Charge.status := "succeeded" |}].

Definition threeDaysBuckets : list (PeriodDatum.t float) :=
  match groupChargesByPeriod utcHost codeUnitCompare threeDays day with
  | inr periodData => periodData
  | inl _ => []
  end.

Lemma groupChargesByPeriod_sorted_witness :
  map PeriodDatum.period threeDaysBuckets = ["2024-01-01"; "2024-01-02"; "2024-01-03"]
  /\ StronglySorted
       (fun a b => codeUnitCompare (PeriodDatum.period a) (PeriodDatum.period b) <> Gt)
       threeDaysBuckets.
Proof.
  split; [vm_compute; reflexivity|].
  apply (groupChargesByPeriod_sorted (num := float) utcHost codeUnitCompare
           threeDays day threeDaysBuckets).
  - apply String_compare_asym.
  - apply String_compare_trans.
  - vm_compute. reflexivity.
Defined.

(** A ledger that ignores the number of the request. *)
Definition steadyLedger : nat -> ChargeListParams.t -> Result ApiList.t :=
  fun _ params =>
    match ChargeListParams.gte params with
    | Some _ => inr {| ApiList.data := exampleCharges; ApiList.has_more := false |}
    | None => inl (ErrorObject "Invalid integer")
    end.

(** A ledger that answers requests outside January 2024 differently. *)
Definition januaryLedger : nat -> ChargeListParams.t -> Result ApiList.t :=
  fun n params =>
    match ChargeListParams.gte params, ChargeListParams.lte params,
          ChargeListParams.limit params with
    | Some 1704067200, Some 1706659200, 100 => steadyLedger n params
    | _, _, _ => inr {| ApiList.data := threeDays; ApiList.has_more := true |}
    end.

Lemma analyzeRevenueTrends_requests_witness :
  analyzeRevenueTrends (num := float) utcHost codeUnitCompare isoDateParse
    steadyLedger 3 (january2024 day)
  = analyzeRevenueTrends utcHost codeUnitCompare isoDateParse
      januaryLedger 3 (january2024 day).
Proof.
  apply (analyzeRevenueTrends_requests (num := float) utcHost codeUnitCompare
           isoDateParse steadyLedger januaryLedger 3 (january2024 day)).
  intros n cursor. vm_compute. reflexivity.
Defined.

(** A ledger that announces more on every page. *)
Definition endlessLedger : nat -> ChargeListParams.t -> Result ApiList.t :=
  fun _ _ => inr {| ApiList.data := exampleCharges; ApiList.has_more := true |}.

Lemma analyzeRevenueTrends_unbounded_witness :
  analyzeRevenueTrends (num := float) utcHost codeUnitCompare isoDateParse
    endlessLedger 1000 (january2024 day)
  = None.
Proof.
  apply (analyzeRevenueTrends_unbounded (num := float) utcHost codeUnitCompare
           isoDateParse endlessLedger (january2024 day)).
  intros n params. eexists. split; reflexivity.
Defined.

(** Three buckets, neither the first nor the last of extreme revenue. *)
Definition threeBuckets : list (PeriodDatum.t float) :=
  [bucketOf "2024-01-01" 2000 1; bucketOf "2024-01-02" 4500 3;
   bucketOf "2024-01-03" 1000 2].

Lemma generateInsights_extremes_witness :
  exists best worst rest,
    In best threeBuckets /\ In worst threeBuckets
    /\ (forall d, In d threeBuckets ->
          byRevenueDesc best d <> Gt /\ byRevenueDesc d worst <> Gt)
    /\ generateInsights threeBuckets (ofZ 75)
       = inr (highestLine best
              :: (if (2 <=? List.length threeBuckets)%nat then [lowestLine worst] else [])
              ++ rest).
Proof.
  apply (generateInsights_extremes threeBuckets (ofZ 75)).
  - discriminate.
  - intros a b Ha Hb.
    cbn [threeBuckets In] in Ha, Hb.
    destruct Ha as [<-|[<-|[<-|[]]]], Hb as [<-|[<-|[<-|[]]]];
      vm_compute; congruence.
  - intros a b c Ha Hb Hc.
    cbn [threeBuckets In] in Ha, Hb, Hc.
    destruct Ha as [<-|[<-|[<-|[]]]], Hb as [<-|[<-|[<-|[]]]],
             Hc as [<-|[<-|[<-|[]]]];
      vm_compute; congruence.
Defined.

Example threeBuckets_insights :
  generateInsights threeBuckets (ofZ 75)
  = inr ["Highest revenue period: 2024-01-02 with $45.00";
         "Lowest revenue period: 2024-01-03 with $10.00";
         "Average revenue per period: $25.00";
         "Processed 6 successful transactions during this period."].
Proof. vm_compute. reflexivity. Qed.

(** * [getPaymentHistory]

    Checkout sessions as the service reads them: every field that the code
    guards with [?.] or [??] is optional ([None] is [null] or
    [undefined]). *)

Module CustomerDetails.
Record t : Type := {
  name : option string;
  email : option string;
  phone : option string
}.
End CustomerDetails.

Module Price.
Record t : Type := { unit_amount : option Z }.
End Price.

Module LineItem.
Record t : Type := {
  description : option string;
  price : option Price.t;
  quantity : option Z;
  amount_total : option Z
}.
End LineItem.

Module ShippingCost.
Record t : Type := { amount_total : option Z }.
End ShippingCost.

Module Session.
Record t : Type := {
  id : string;
  payment_intent : option string;
  created : Z;                                (** seconds since the epoch *)
  amount_total : option Z;                    (** minor units *)
  customer_details : option CustomerDetails.t;
  line_items : option (list LineItem.t);      (** [line_items?.data] *)
  metadata : option (JSMap.t string);
  shipping_cost : option ShippingCost.t
}.
End Session.

Module SessionList.
Record t : Type := {
  data : list Session.t;
  has_more : bool
}.
End SessionList.

Module SessionListParams.
Record t : Type := {
  limit : Z;
  status : string;
  expand : list string;
  gte : option Z;
  lte : option Z;
  starting_after : option string
}.
End SessionListParams.

Module PaymentLineItem.
Record t (num : Type) : Type := {
  name : option string;
  unitPrice : num;
  quantity : option Z;
  totalAmount : num
}.
Arguments name {num}.
Arguments unitPrice {num}.
Arguments quantity {num}.
Arguments totalAmount {num}.
End PaymentLineItem.

Module ShippingDetails.
Record t (num : Type) : Type := {
  address : option string;
  totalAmount : num
}.
Arguments address {num}.
Arguments totalAmount {num}.
End ShippingDetails.

Module Payment.
Record t (num : Type) : Type := {
  paymentIntentId : option string;
  date : string;
  totalAmount : num;
  customerDetails : CustomerDetails.t;
  lineItems : list (PaymentLineItem.t num);
  shippingDetails : ShippingDetails.t num
}.
Arguments paymentIntentId {num}.
Arguments date {num}.
Arguments totalAmount {num}.
Arguments customerDetails {num}.
Arguments lineItems {num}.
Arguments shippingDetails {num}.
End Payment.

Module PaymentSummary.
Record t (num : Type) : Type := {
  totalPayments : Z;
  totalRevenue : num
}.
Arguments totalPayments {num}.
Arguments totalRevenue {num}.
End PaymentSummary.

Module PaymentHistory.
(** The payload of [getPaymentHistory]; [error] is optional. *)
Record t (num : Type) : Type := {
  payments : list (Payment.t num);
  summary : PaymentSummary.t num;
  error : option string
}.
Arguments payments {num}.
Arguments summary {num}.
Arguments error {num}.

Record args : Type := {
  startDate : string;
  endDate : string
}.
End PaymentHistory.

(** [x ?? d]. *)
Definition orElse {A : Type} (x : option A) (d : A) : A :=
  match x with
  | Some a => a
  | None => d
  end.

(** [x?.f] for an optional field [f]. *)
Definition optField {A B : Type} (x : option A) (f : A -> option B) : option B :=
  match x with
  | Some a => f a
  | None => None
  end.

Section PaymentHistoryService.

Context {num : Type} `{Number num}.

(** [fromZonedTime(s, timeZone)] of date-fns-tz: a [Date], possibly
    invalid, or an exception. *)
Variable fromZonedTime : string -> string -> Result JSDate.Date.
(** [d.toLocaleString(locale, { timeZone })]. *)
Variable toLocaleString : JSDate.Date -> string -> string -> string.

(** [sessions_list n params] is the answer of
    [stripe.checkout.sessions.list] to the request [params] when [n]
    requests have been answered before it. *)
Variable sessions_list : nat -> SessionListParams.t -> Result SessionList.t.

(** The [while (hasMore)] loop of [getPaymentHistory]. *)
Fixpoint fetchSessions (fuel : nat) (startTimestamp endTimestamp : option Z)
    (calls : nat) (allSessions : list Session.t) (startingAfter : option string)
  : option (Result (list Session.t)) :=
  match fuel with
  | O => None
  | S fuel' =>
      match sessions_list calls
              {| SessionListParams.limit := 100;
                 SessionListParams.status := "complete";
                 SessionListParams.expand := ["data.line_items"];
                 SessionListParams.gte := startTimestamp;
                 SessionListParams.lte := endTimestamp;
                 SessionListParams.starting_after := startingAfter |} with
      | inl e => Some (throw e)
      | inr sessions =>
          let allSessions := allSessions ++ SessionList.data sessions in
          let hasMore := SessionList.has_more sessions in
          let startingAfter :=
            match hasMore, JSArray.last (SessionList.data sessions) with
            | true, Some s => Some (Session.id s)
            | _, _ => startingAfter
            end in
          if hasMore
          then fetchSessions fuel' startTimestamp endTimestamp (S calls)
                 allSessions startingAfter
          else Some (ret allSessions)
      end
  end.

(** The callback of [session.line_items?.data.map]. *)
Definition toLineItem (lineItem : LineItem.t) : PaymentLineItem.t num :=
  {| PaymentLineItem.name := LineItem.description lineItem;
     PaymentLineItem.unitPrice :=
       (ofZ (orElse (optField (LineItem.price lineItem) Price.unit_amount) 0)
        / ofZ 100)%num;
     PaymentLineItem.quantity := LineItem.quantity lineItem;
     PaymentLineItem.totalAmount :=
       (ofZ (orElse (LineItem.amount_total lineItem) 0) / ofZ 100)%num |}.

(** The callback of [allSessions.map]. *)
Definition toPayment (session : Session.t) : Payment.t num :=
  let customerDetails :=
    {| CustomerDetails.name :=
         optField (Session.customer_details session) CustomerDetails.name;
       CustomerDetails.email :=
         optField (Session.customer_details session) CustomerDetails.email;
       CustomerDetails.phone :=
         optField (Session.customer_details session) CustomerDetails.phone |} in
  let lineItems :=
    orElse (option_map (map toLineItem) (Session.line_items session)) [] in
  let shippingDetails :=
    {| ShippingDetails.address :=
         optField (Session.metadata session) (JSMap.get "delivery_address");
       ShippingDetails.totalAmount :=
         (ofZ (orElse (optField (Session.shipping_cost session)
                         ShippingCost.amount_total) 0)
          / ofZ 100)%num |} in
  {| Payment.paymentIntentId := Session.payment_intent session;
     Payment.date :=
       toLocaleString (JSDate.ofNumber (Session.created session * 1000))
         "en-US" "America/Los_Angeles";
     Payment.totalAmount :=
       (ofZ (orElse (Session.amount_total session) 0) / ofZ 100)%num;
     Payment.customerDetails := customerDetails;
     Payment.lineItems := lineItems;
     Payment.shippingDetails := shippingDetails |}.

(** The statements of the [try] block after the loop. *)
Definition paymentHistory (allSessions : list Session.t) : PaymentHistory.t num :=
  let payments := map toPayment allSessions in
  let totalRevenue :=
    fold_left (fun sum payment => (sum + Payment.totalAmount payment)%num)
      payments (ofZ 0) in
  {| PaymentHistory.payments := payments;
     PaymentHistory.summary :=
       {| PaymentSummary.totalPayments := Z.of_nat (List.length payments);
          PaymentSummary.totalRevenue :=
            (Math_round (totalRevenue * ofZ 100) / ofZ 100)%num |};
     PaymentHistory.error := None |}.

(** The [catch] block of [getPaymentHistory]. *)
Definition paymentHistoryFailure (error : Thrown) : PaymentHistory.t num :=
  {| PaymentHistory.payments := [];
     PaymentHistory.summary :=
       {| PaymentSummary.totalPayments := 0;
          PaymentSummary.totalRevenue := ofZ 0 |};
     PaymentHistory.error :=
       Some ("Failed to retrieve payment history: " +++ errorMessage error) |}.

(** [Math.floor(d.getTime() / 1000)]. *)
Definition secondsOf (d : JSDate.Date) : option Z :=
  option_map (fun ms => ms / 1000) d.

(** [None]: the loop is still running when the fuel is spent.  The
    [console.log] of the payments is not part of the model. *)
Definition getPaymentHistory (fuel : nat) (args : PaymentHistory.args)
  : option (PaymentHistory.t num) :=
  match (let* startDateUtc :=
           fromZonedTime (PaymentHistory.startDate args) "America/Los_Angeles" in
         let* endDateUtc :=
           fromZonedTime (PaymentHistory.endDate args) "America/Los_Angeles" in
         ret (secondsOf startDateUtc, secondsOf endDateUtc)) with
  | inl error => Some (paymentHistoryFailure error)
  | inr (startTimestamp, endTimestamp) =>
      match fetchSessions fuel startTimestamp endTimestamp 0 [] None with
      | None => None
      | Some (inl error) => Some (paymentHistoryFailure error)
      | Some (inr allSessions) => Some (paymentHistory allSessions)
      end
  end.

End PaymentHistoryService.

(** ** Pagination against a ledger that honours the cursor

    Both loops page in the same way; [paginate] is their common shape, over
    the items of a page, the items kept and the items' ids. *)

Section Pagination.

Context {A : Type}.
Variable idOf : A -> string.
Variable keep : A -> bool.
Variable list_page : nat -> option string -> Result (list A * bool).

Fixpoint paginate (fuel calls : nat) (acc : list A) (cursor : option string)
  : option (Result (list A)) :=
  match fuel with
  | O => None
  | S fuel' =>
      match list_page calls cursor with
      | inl e => Some (inl e)
      | inr (data, hasMore) =>
          let acc := acc ++ filter keep data in
          let cursor :=
            match hasMore, JSArray.last data with
            | true, Some x => Some (idOf x)
            | _, _ => cursor
            end in
          if hasMore then paginate fuel' (S calls) acc cursor
          else Some (inr acc)
      end
  end.

(** The objects after the one with the given id, [None] when there is no
    such object. *)
Fixpoint after (id : string) (l : list A) : option (list A) :=
  match l with
  | [] => None
  | x :: l' => if String.eqb (idOf x) id then Some l' else after id l'
  end.

(** A cursor-based list endpoint over the objects [all]: at most [size]
    objects after the cursor, and whether more follow. *)
Definition pageOf (all : list A) (size : nat) (cursor : option string)
  : Result (list A * bool) :=
  match (match cursor with
         | None => Some all
         | Some id => after id all
         end) with
  | None => inl (ErrorObject "No such object")
  | Some rest => inr (firstn size rest, (size <? List.length rest)%nat)
  end.

Lemma after_app pre x rest :
  NoDup (map idOf (pre ++ x :: rest)) ->
  after (idOf x) (pre ++ x :: rest) = Some rest.
Proof.
  induction pre as [|y pre IH]; cbn [app map after]; intros Hnd.
  - now rewrite String.eqb_refl.
  - inversion Hnd as [|? ? Hnotin Hnd']; subst.
    destruct (String.eqb_spec (idOf y) (idOf x)) as [Heq|Hne].
    + exfalso. apply Hnotin. rewrite Heq, map_app. apply in_or_app. right. now left.
    + now apply IH.
Qed.

Lemma last_firstn_skipn (l : list A) (n : nat) :
  (0 < n < List.length l)%nat ->
  exists page x, firstn n l = page ++ [x] /\ JSArray.last (firstn n l) = Some x.
Proof.
  revert l. induction n as [|n IH]; intros l Hn; [lia|].
  destruct l as [|a l]; [simpl in Hn; lia|].
  destruct n as [|n'].
  - exists [], a. split; reflexivity.
  - simpl in Hn. destruct (IH l ltac:(lia)) as (page & x & Hpage & Hlast).
    exists (a :: page), x. split.
    + cbn [firstn] in *. now rewrite Hpage.
    + change (firstn (S (S n')) (a :: l)) with (a :: firstn (S n') l).
      destruct (firstn (S n') l) as [|b l0] eqn:Hf; [discriminate|].
      exact Hlast.
Qed.

Variable all : list A.
Variable size : nat.
Hypothesis all_NoDup : NoDup (map idOf all).
Hypothesis size_pos : (0 < size)%nat.
Hypothesis list_page_pageOf : forall n cursor, list_page n cursor = pageOf all size cursor.

Lemma paginate_rest fuel : forall calls acc cursor pre rest,
  all = pre ++ rest ->
  match cursor with
  | None => Some all
  | Some id => after id all
  end = Some rest ->
  (List.length rest < fuel)%nat ->
  paginate fuel calls acc cursor = Some (inr (acc ++ filter keep rest)).
Proof.
  induction fuel as [|fuel IH]; intros calls acc cursor pre rest Hall Hcur Hfuel; [lia|].
  cbn [paginate]. rewrite list_page_pageOf. unfold pageOf. rewrite Hcur.
  destruct (Nat.ltb_spec size (List.length rest)) as [Hlt|Hge].
  - destruct (last_firstn_skipn rest size ltac:(lia)) as (page & x & Hpage & Hlast).
    rewrite Hlast.
    assert (Hrest : rest = page ++ x :: skipn size rest).
    { rewrite <- (firstn_skipn size rest) at 1. rewrite Hpage, <- app_assoc. reflexivity. }
    rewrite (IH _ _ _ (pre ++ page ++ [x]) (skipn size rest)).
    + rewrite <- app_assoc, <- filter_app, firstn_skipn. reflexivity.
    + rewrite Hall, Hrest at 1. now rewrite <- !app_assoc.
    + rewrite Hall, Hrest at 1. rewrite app_assoc. apply after_app.
      rewrite <- app_assoc, <- Hrest, <- Hall. exact all_NoDup.
    + rewrite length_skipn. lia.
  - rewrite firstn_all2 by lia. reflexivity.
Qed.

(** Every object of the ledger is seen once, in the ledger's order,
    whatever the size of the pages. *)
Lemma paginate_complete fuel :
  (List.length all < fuel)%nat ->
  paginate fuel 0 [] None = Some (inr (filter keep all)).
Proof.
  intros Hfuel. now apply (paginate_rest fuel 0%nat [] None [] all).
Qed.

End Pagination.

(** The answers of [stripe.charges.list] for a ledger that holds the
    charges [all] in the requested range and serves them [size] at a
    time. *)
Definition pagedCharges (all : list Charge.t) (size : nat) (cursor : option string)
  : Result ApiList.t :=
  match pageOf Charge.id all size cursor with
  | inl e => inl e
  | inr (data, hasMore) => inr {| ApiList.data := data; ApiList.has_more := hasMore |}
  end.

(** The same for [stripe.checkout.sessions.list]. *)
Definition pagedSessions (all : list Session.t) (size : nat) (cursor : option string)
  : Result SessionList.t :=
  match pageOf Session.id all size cursor with
  | inl e => inl e
  | inr (data, hasMore) =>
      inr {| SessionList.data := data; SessionList.has_more := hasMore |}
  end.

Lemma filter_all {A : Type} (l : list A) : filter (fun _ => true) l = l.
Proof. induction l as [|a l IH]; [reflexivity|]. cbn [filter]. now rewrite IH. Qed.

Lemma fetchCharges_paginate charges_list startTimestamp endTimestamp fuel :
  forall calls charges startingAfter,
  fetchCharges charges_list fuel startTimestamp endTimestamp calls charges startingAfter
  = paginate Charge.id succeeded
      (fun n cursor =>
         match charges_list n
                 {| ChargeListParams.gte := startTimestamp;
                    ChargeListParams.lte := endTimestamp;
                    ChargeListParams.limit := 100;
                    ChargeListParams.starting_after := cursor |} with
         | inl e => inl e
         | inr response => inr (ApiList.data response, ApiList.has_more response)
         end)
      fuel calls charges startingAfter.
Proof.
  induction fuel as [|fuel IH]; intros calls charges startingAfter; [reflexivity|].
  cbn [fetchCharges paginate].
  destruct (charges_list calls _) as [e|response]; [reflexivity|].
  fold succeeded. destruct (ApiList.has_more response); [|reflexivity].
  apply IH.
Qed.

Lemma fetchSessions_paginate sessions_list startTimestamp endTimestamp fuel :
  forall calls allSessions startingAfter,
  fetchSessions sessions_list fuel startTimestamp endTimestamp calls allSessions
    startingAfter
  = paginate Session.id (fun _ => true)
      (fun n cursor =>
         match sessions_list n
                 {| SessionListParams.limit := 100;
                    SessionListParams.status := "complete";
                    SessionListParams.expand := ["data.line_items"];
                    SessionListParams.gte := startTimestamp;
                    SessionListParams.lte := endTimestamp;
                    SessionListParams.starting_after := cursor |} with
         | inl e => inl e
         | inr sessions => inr (SessionList.data sessions, SessionList.has_more sessions)
         end)
      fuel calls allSessions startingAfter.
Proof.
  induction fuel as [|fuel IH]; intros calls allSessions startingAfter; [reflexivity|].
  cbn [fetchSessions paginate].
  destruct (sessions_list calls _) as [e|sessions]; [reflexivity|].
  rewrite filter_all. destruct (SessionList.has_more sessions); [|reflexivity].
  apply IH.
Qed.

Section AllPages.

Context {num : Type} `{Number num}.
Variable LocalTZA : Z -> bool -> Z.
Variable localeCompare : string -> string -> comparison.
Variable Date_parse : string -> option Z.

(** X11. Paging loses and repeats nothing: against a ledger that honours the
    cursor, holds charges with pairwise distinct ids and serves them in
    pages of any positive size, the loop retains exactly the succeeded
    charges of the ledger, in the ledger's order, and the payload is the
    summary of these. *)
Theorem analyzeRevenueTrends_all_pages
    (charges_list : nat -> ChargeListParams.t -> Result ApiList.t)
    (all : list Charge.t) (size fuel : nat) (args : RevenueTrends.args)
    (Hids : NoDup (map Charge.id all))
    (Hsize : (0 < size)%nat)
    (Hfuel : (List.length all < fuel)%nat)
    (Hledger : forall n cursor,
        charges_list n
          {| ChargeListParams.gte :=
               toTimestamp Date_parse (RevenueTrends.startDate args);
             ChargeListParams.lte :=
               toTimestamp Date_parse (RevenueTrends.endDate args);
             ChargeListParams.limit := 100;
             ChargeListParams.starting_after := cursor |}
        = pagedCharges all size cursor) :
  retained Date_parse charges_list fuel args = Some (inr (filter succeeded all))
  /\ analyzeRevenueTrends (num := num) LocalTZA localeCompare Date_parse
       charges_list fuel args
     = Some match summarize LocalTZA localeCompare (filter succeeded all)
                    (RevenueTrends.groupBy args) with
            | inr payload => payload
            | inl e => failurePayload (errorMessage e)
            end.
Proof.
  assert (Hret : retained Date_parse charges_list fuel args
                 = Some (inr (filter succeeded all))).
  { unfold retained. rewrite fetchCharges_paginate.
    apply (paginate_complete Charge.id succeeded _ all size Hids Hsize); [|exact Hfuel].
    intros n cursor. rewrite Hledger. unfold pagedCharges.
    destruct (pageOf Charge.id all size cursor) as [e|[data hasMore]]; reflexivity. }
  split; [exact Hret|].
  rewrite analyzeRevenueTrends_unfold, Hret.
  destruct (summarize _ _ _ _); reflexivity.
Qed.

End AllPages.

Section PaymentHistoryFacts.

Context {num : Type} `{Number num}.
Variable fromZonedTime : string -> string -> Result JSDate.Date.
Variable toLocaleString : JSDate.Date -> string -> string -> string.



(** X13. Paging loses and repeats no session: against a ledger that honours
    the cursor, holds sessions with pairwise distinct ids and serves them in
    pages of any positive size, the payload lists every session of the
    ledger once, in the ledger's order. *)
Theorem getPaymentHistory_all_pages
    (sessions_list : nat -> SessionListParams.t -> Result SessionList.t)
    (all : list Session.t) (size fuel : nat) (args : PaymentHistory.args)
    (startDateUtc endDateUtc : JSDate.Date)
    (Hstart : fromZonedTime (PaymentHistory.startDate args) "America/Los_Angeles"
              = inr startDateUtc)
    (Hend : fromZonedTime (PaymentHistory.endDate args) "America/Los_Angeles"
            = inr endDateUtc)
    (Hids : NoDup (map Session.id all))
    (Hsize : (0 < size)%nat)
    (Hfuel : (List.length all < fuel)%nat)
    (Hledger : forall n cursor,
        sessions_list n
          {| SessionListParams.limit := 100;
             SessionListParams.status := "complete";
             SessionListParams.expand := ["data.line_items"];
             SessionListParams.gte := secondsOf startDateUtc;
             SessionListParams.lte := secondsOf endDateUtc;
             SessionListParams.starting_after := cursor |}
        = pagedSessions all size cursor) :
  getPaymentHistory (num := num) fromZonedTime toLocaleString sessions_list fuel args
  = Some (paymentHistory toLocaleString all).
Proof.
  unfold getPaymentHistory, bind. rewrite Hstart, Hend. cbn [ret].
  rewrite fetchSessions_paginate.
  rewrite (paginate_complete Session.id (fun _ => true) _ all size Hids Hsize).
  - now rewrite filter_all.
  - intros n cursor. rewrite Hledger. unfold pagedSessions.
    destruct (pageOf Session.id all size cursor) as [e|[data hasMore]]; reflexivity.
  - exact Hfuel.
Qed.

End PaymentHistoryFacts.

(** ** Paging and the payment history at concrete inputs *)

(** The example's charges and a failed one, served two at a time. *)
Definition fourCharges : list Charge.t :=
  exampleCharges ++ [newYearCharge "ch_4" 999999 "failed"].

Definition twoAtATime : nat -> ChargeListParams.t -> Result ApiList.t :=
  fun _ params => pagedCharges fourCharges 2 (ChargeListParams.starting_after params).

Lemma analyzeRevenueTrends_all_pages_witness :
  retained isoDateParse twoAtATime 5 (january2024 day)
  = Some (inr (filter succeeded fourCharges))
  /\ analyzeRevenueTrends (num := float) utcHost codeUnitCompare isoDateParse
       twoAtATime 5 (january2024 day)
     = Some match summarize utcHost codeUnitCompare (filter succeeded fourCharges) day with
            | inr payload => payload
            | inl e => failurePayload (errorMessage e)
            end.
Proof.
  apply (analyzeRevenueTrends_all_pages (num := float) utcHost codeUnitCompare
           isoDateParse twoAtATime fourCharges 2 5 (january2024 day)).
  - repeat constructor; simpl; intuition discriminate.
  - lia.
  - simpl. lia.
  - intros n cursor. reflexivity.
Defined.

(** A host that reads a date-only string as UTC midnight in every zone. *)
Definition utcZoned : string -> string -> Result JSDate.Date :=
  fun s _ => inr (isoDateParse s).

(** A host that renders a date by its ISO calendar date. *)
Definition isoLocale : JSDate.Date -> string -> string -> string :=
  fun d _ _ =>
    match JSDate.toISODate d with
    | Some s => s
    | None => "Invalid Date"
    end.

(** A complete session, and one with nothing but its id and a creation time
    out of the range of dates. *)
Definition exampleSessions : list Session.t :=
  [{| Session.id := "cs_1";
      Session.payment_intent := Some "pi_1";
      Session.created := 1704067200;
      Session.amount_total := Some 2599;
      Session.customer_details :=
        Some {| CustomerDetails.name := Some "Ada";
                CustomerDetails.email := Some "ada@example.com";
                CustomerDetails.phone := None |};
      Session.line_items :=
        Some [{| LineItem.description := Some "Lamp";
                 LineItem.price := Some {| Price.unit_amount := Some 1000 |};
                 LineItem.quantity := Some 2;
                 LineItem.amount_total := Some 2000 |}];
      Session.metadata := Some [("delivery_address", "1 Main Street")];
      Session.shipping_cost := Some {| ShippingCost.amount_total := Some 599 |} |};
   {| Session.id := "cs_2";
      Session.payment_intent := None;
      Session.created := 8640000000001;
      Session.amount_total := None;
      Session.customer_details := None;
      Session.line_items := None;
      Session.metadata := None;
      Session.shipping_cost := None |}].

Definition sessionArgs : PaymentHistory.args :=
  {| PaymentHistory.startDate := "2024-01-01";
     PaymentHistory.endDate := "2024-01-31" |}.


Definition exampleHistory : PaymentHistory.t float :=
  paymentHistory isoLocale exampleSessions.


Definition oneAtATime : nat -> SessionListParams.t -> Result SessionList.t :=
  fun _ params => pagedSessions exampleSessions 1 (SessionListParams.starting_after params).

Lemma getPaymentHistory_all_pages_witness :
  getPaymentHistory (num := float) utcZoned isoLocale oneAtATime 3 sessionArgs
  = Some exampleHistory.
Proof.
  apply (getPaymentHistory_all_pages utcZoned isoLocale oneAtATime exampleSessions
           1 3 sessionArgs (isoDateParse "2024-01-01") (isoDateParse "2024-01-31")).
  - reflexivity.
  - reflexivity.
  - repeat constructor; simpl; intuition discriminate.
  - lia.
  - simpl. lia.
  - intros n cursor. reflexivity.
Defined.

(** The payments of the example, as the service renders them. *)
Example exampleHistory_payments :
  map Payment.date (PaymentHistory.payments exampleHistory)
  = ["2024-01-01"; "Invalid Date"]
  /\ map Payment.paymentIntentId (PaymentHistory.payments exampleHistory)
     = [Some "pi_1"; None]
  /\ map (fun p => toFixed2 (Payment.totalAmount p)) (PaymentHistory.payments exampleHistory)
     = ["25.99"; "0.00"]
  /\ map (fun p => ShippingDetails.address (Payment.shippingDetails p))
       (PaymentHistory.payments exampleHistory)
     = [Some "1 Main Street"; None]
  /\ map (fun p => List.length (Payment.lineItems p))
       (PaymentHistory.payments exampleHistory)
     = [1%nat; 0%nat]
  /\ toFixed2 (PaymentSummary.totalRevenue (PaymentHistory.summary exampleHistory))
     = "25.99".
Proof. repeat apply conj; vm_compute; reflexivity. Qed.

(** ** Period keys name their period *)

(** Strings are split where their heads have the same length. *)
Lemma append_inj (s1 s2 t1 t2 : string) :
  String.length s1 = String.length s2 ->
  s1 +++ t1 = s2 +++ t2 -> s1 = s2 /\ t1 = t2.
Proof.
  revert s2. induction s1 as [|c s1 IH]; intros [|c2 s2] Hlen Heq;
    try discriminate.
  - split; [reflexivity|exact Heq].
  - injection Hlen as Hlen. injection Heq as -> Heq.
    destruct (IH _ Hlen Heq) as (-> & ->). split; reflexivity.
Qed.

Lemma append_length (s t : string) :
  String.length (s +++ t) = (String.length s + String.length t)%nat.
Proof. induction s as [|c s IH]; [reflexivity|]. cbn. now rewrite IH. Qed.

(** The same, for tails of the same length. *)
Lemma append_inj_tail (s1 s2 t1 t2 : string) :
  String.length t1 = String.length t2 ->
  s1 +++ t1 = s2 +++ t2 -> s1 = s2 /\ t1 = t2.
Proof.
  intros Hlen Heq. apply append_inj; [|exact Heq].
  apply (f_equal String.length) in Heq. rewrite !append_length in Heq. lia.
Qed.

(** A padded decimal is the rendering of a digit sequence of the same
    value. *)
Lemma padStart0_digits (n : nat) (z : Z) :
  0 <= z ->
  exists d, JSString.padStart0 n (JSString.ofZ z) = DecimalString.NilEmpty.string_of_uint d
            /\ d <> Decimal.Nil
            /\ Pos.of_uint d = Z.to_N z.
Proof.
  intros Hz. unfold JSString.padStart0.
  set (k := (n - String.length (JSString.ofZ z))%nat). clearbody k.
  assert (Hbase : exists d, JSString.ofZ z = DecimalString.NilEmpty.string_of_uint d
                            /\ d <> Decimal.Nil /\ Pos.of_uint d = Z.to_N z).
  { destruct z as [|p|p]; [| |lia].
    - exists (Decimal.D0 Decimal.Nil). repeat split. discriminate.
    - exists (Pos.to_uint p). cbn [JSString.ofZ Z.to_N].
      pose proof (DecimalPos.Unsigned.to_uint_nonnil p) as Hnn.
      repeat split.
      + unfold DecimalString.NilZero.string_of_uint.
        destruct (Pos.to_uint p); [contradiction| | | | | | | | | |]; reflexivity.
      + exact Hnn.
      + apply DecimalPos.Unsigned.of_to. }
  destruct Hbase as (d & Hd & Hnn & Hv). rewrite Hd. clear Hd.
  induction k as [|k IH].
  - exists d. repeat split; assumption.
  - destruct IH as (d' & Hd' & Hnn' & Hv').
    exists (Decimal.D0 d'). repeat split.
    + cbn. cbn in Hd'. rewrite <- Hd'. reflexivity.
    + discriminate.
    + cbn. exact Hv'.
Qed.

Lemma padStart0_inj (n : nat) (a b : Z) :
  0 <= a -> 0 <= b ->
  JSString.padStart0 n (JSString.ofZ a) = JSString.padStart0 n (JSString.ofZ b) ->
  a = b.
Proof.
  intros Ha Hb Heq.
  destruct (padStart0_digits n a Ha) as (da & Hda & _ & Hva).
  destruct (padStart0_digits n b Hb) as (db & Hdb & _ & Hvb).
  rewrite Hda, Hdb in Heq.
  apply (f_equal DecimalString.NilEmpty.uint_of_string) in Heq.
  rewrite !DecimalString.NilEmpty.usu in Heq. injection Heq as ->.
  rewrite Hva in Hvb. lia.
Qed.

Lemma padStart0_first (n : nat) (z : Z) :
  0 <= z ->
  exists c s, JSString.padStart0 n (JSString.ofZ z) = String c s
              /\ c <> "-"%char /\ c <> "+"%char.
Proof.
  intros Hz. destruct (padStart0_digits n z Hz) as (d & -> & Hnn & _).
  destruct d; [contradiction| | | | | | | | | |]; cbn;
    eexists; eexists; (split; [reflexivity|split; discriminate]).
Qed.

Lemma isoYear_inj (y1 y2 : Z) : JSDate.isoYear y1 = JSDate.isoYear y2 -> y1 = y2.
Proof.
  unfold JSDate.isoYear.
  destruct ((0 <=? y1) && (y1 <=? 9999)) eqn:H1, ((0 <=? y2) && (y2 <=? 9999)) eqn:H2.
  - apply andb_prop in H1 as (H1 & _), H2 as (H2 & _).
    apply Z.leb_le in H1, H2. now apply padStart0_inj.
  - apply andb_prop in H1 as (H1 & _). apply Z.leb_le in H1.
    destruct (padStart0_first 4 y1 H1) as (c & s & -> & Hm & Hp).
    destruct (y2 <? 0); cbn [String.append]; intros Heq; injection Heq as -> _;
      contradiction.
  - apply andb_prop in H2 as (H2 & _). apply Z.leb_le in H2.
    destruct (padStart0_first 4 y2 H2) as (c & s & -> & Hm & Hp).
    destruct (y1 <? 0); cbn [String.append]; intros Heq; injection Heq as <- _;
      contradiction.
  - destruct (Z.ltb_spec y1 0), (Z.ltb_spec y2 0); cbn [String.append]; intros Heq;
      injection Heq as Heq; try discriminate;
      apply padStart0_inj in Heq; lia.
Qed.

Lemma ofZ_inj (a b : Z) : JSString.ofZ a = JSString.ofZ b -> a = b.
Proof.
  assert (Hpos : forall p, exists c s,
             DecimalString.NilZero.string_of_uint (Pos.to_uint p) = String c s
             /\ c <> "-"%char).
  { intros p. pose proof (DecimalPos.Unsigned.to_uint_nonnil p) as Hnn.
    destruct (Pos.to_uint p); [contradiction| | | | | | | | | |]; cbn;
      eexists; eexists; (split; [reflexivity|discriminate]). }
  assert (Hinj : forall p q,
             DecimalString.NilZero.string_of_uint (Pos.to_uint p)
             = DecimalString.NilZero.string_of_uint (Pos.to_uint q) -> p = q).
  { intros p q Heq. apply DecimalPos.Unsigned.to_uint_inj.
    apply (f_equal DecimalString.NilZero.uint_of_string) in Heq.
    rewrite !DecimalString.NilZero.usu in Heq
      by apply DecimalPos.Unsigned.to_uint_nonnil.
    now injection Heq. }
  assert (Hzero : forall p,
             DecimalString.NilZero.string_of_uint (Pos.to_uint p) <> "0").
  { intros p Heq. change "0" with (DecimalString.NilZero.string_of_uint (Decimal.D0 Decimal.Nil)) in Heq.
    apply (f_equal DecimalString.NilZero.uint_of_string) in Heq.
    rewrite !DecimalString.NilZero.usu in Heq
      by (try apply DecimalPos.Unsigned.to_uint_nonnil; discriminate).
    injection Heq as Heq. now apply DecimalPos.Unsigned.to_uint_nonzero in Heq. }
  destruct a as [|p|p], b as [|q|q]; cbn [JSString.ofZ]; intros Heq;
    try reflexivity.
  - symmetry in Heq. now apply Hzero in Heq.
  - discriminate.
  - now apply Hzero in Heq.
  - f_equal. now apply Hinj.
  - destruct (Hpos p) as (c & s & Hc & Hm). rewrite Hc in Heq.
    cbn in Heq. injection Heq as -> _. contradiction.
  - discriminate.
  - destruct (Hpos q) as (c & s & Hc & Hm). rewrite Hc in Heq.
    cbn in Heq. injection Heq as <- _. contradiction.
  - cbn in Heq. injection Heq as Heq. f_equal. now apply Hinj.
Qed.

(** Two digits for a number below 100. *)
Lemma pad2_length (z : Z) :
  0 <= z <= 99 -> String.length (JSString.padStart0 2 (JSString.ofZ z)) = 2%nat.
Proof.
  intros Hz.
  assert (Hall : forallb (fun k => Nat.eqb (String.length
                    (JSString.padStart0 2 (JSString.ofZ (Z.of_nat k)))) 2)
                   (seq 0 100) = true) by (vm_compute; reflexivity).
  rewrite forallb_forall in Hall.
  specialize (Hall (Z.to_nat z)). rewrite Z2Nat.id in Hall by lia.
  apply Nat.eqb_eq, Hall, in_seq. lia.
Qed.

(** The calendar date of a time value depends on its day only, and names
    it. *)
Lemma DayWithinYear_range t :
  0 <= JSDate.DayWithinYear t < JSDate.DaysInYear (JSDate.YearFromTime t).
Proof.
  unfold JSDate.DayWithinYear, JSDate.YearFromTime.
  pose proof (YearFromDay_correct (JSDate.Day t)) as Hy.
  rewrite DayFromYear_succ in Hy. lia.
Qed.

Lemma DateFromTime_range t : 1 <= JSDate.DateFromTime t <= 31.
Proof.
  pose proof (DayWithinYear_range t) as Hd.
  unfold JSDate.DateFromTime, JSDate.MonthFromTime, JSDate.InLeapYear in *.
  destruct (Z.eqb_spec (JSDate.DaysInYear (JSDate.YearFromTime t)) 366) as [Hleap|Hleap].
  - repeat match goal with
           | |- context [if ?a <? ?b then _ else _] => destruct (Z.ltb_spec a b)
           end; cbn [JSDate.monthStart]; lia.
  - assert (Hdays : JSDate.DaysInYear (JSDate.YearFromTime t) = 365).
    { revert Hleap. unfold JSDate.DaysInYear.
      repeat match goal with |- context [if ?b then _ else _] => destruct b end;
        congruence. }
    repeat match goal with
           | |- context [if ?a <? ?b then _ else _] => destruct (Z.ltb_spec a b)
           end; cbn [JSDate.monthStart]; lia.
Qed.

Lemma Day_of_date t :
  JSDate.Day t
  = JSDate.DayFromYear (JSDate.YearFromTime t)
    + JSDate.monthStart (JSDate.MonthFromTime t) (JSDate.InLeapYear t)
    + JSDate.DateFromTime t - 1.
Proof. unfold JSDate.DateFromTime, JSDate.DayWithinYear. lia. Qed.

Lemma toISODate_Day t1 t2 :
  JSDate.Day t1 = JSDate.Day t2 ->
  JSDate.toISODate (Some t1) = JSDate.toISODate (Some t2).
Proof.
  intros Hday. unfold JSDate.toISODate.
  assert (Hy : JSDate.YearFromTime t1 = JSDate.YearFromTime t2)
    by (unfold JSDate.YearFromTime; now rewrite Hday).
  assert (Hl : JSDate.InLeapYear t1 = JSDate.InLeapYear t2)
    by (unfold JSDate.InLeapYear; now rewrite Hy).
  assert (Hw : JSDate.DayWithinYear t1 = JSDate.DayWithinYear t2)
    by (unfold JSDate.DayWithinYear; now rewrite Hday, Hy).
  assert (Hm : JSDate.MonthFromTime t1 = JSDate.MonthFromTime t2)
    by (unfold JSDate.MonthFromTime; now rewrite Hw, Hl).
  assert (Hd : JSDate.DateFromTime t1 = JSDate.DateFromTime t2)
    by (unfold JSDate.DateFromTime; now rewrite Hw, Hm, Hl).
  now rewrite Hy, Hm, Hd.
Qed.

Lemma toISODate_inj t1 t2 :
  JSDate.toISODate (Some t1) = JSDate.toISODate (Some t2) ->
  JSDate.Day t1 = JSDate.Day t2.
Proof.
  unfold JSDate.toISODate. intros Heq. injection Heq as Heq.
  pose proof (MonthFromTime_range t1) as Hm1.
  pose proof (MonthFromTime_range t2) as Hm2.
  pose proof (DateFromTime_range t1) as Hd1.
  pose proof (DateFromTime_range t2) as Hd2.
  apply append_inj_tail in Heq as (Hy & Heq).
  2:{ cbn [String.append String.length]. rewrite !append_length.
      cbn [String.append String.length]. rewrite !pad2_length by lia. reflexivity. }
  apply isoYear_inj in Hy.
  cbn [String.append] in Heq. injection Heq as Heq.
  apply append_inj in Heq as (Hm & Heq); [|rewrite !pad2_length by lia; reflexivity].
  apply padStart0_inj in Hm; [|lia|lia].
  cbn [String.append] in Heq. injection Heq as Hd.
  apply padStart0_inj in Hd; [|lia|lia].
  rewrite (Day_of_date t1), (Day_of_date t2).
  unfold JSDate.InLeapYear. rewrite Hy.
  replace (JSDate.MonthFromTime t1) with (JSDate.MonthFromTime t2) by lia.
  lia.
Qed.

(** ** What a bucket holds *)

(** The UTC day of a charge, in days since the epoch. *)
Definition utcDay (charge : Charge.t) : Z :=
  JSDate.Day (Charge.created charge * 1000).

(** The week of a charge, weeks running from Sunday to Saturday. *)
Definition sundayWeek (charge : Charge.t) : Z := (utcDay charge + 4) / 7.

Section Buckets.

Context {num : Type} `{Number num}.
Variable LocalTZA : Z -> bool -> Z.
Variable localeCompare : string -> string -> comparison.

Lemma forEachCharge_keys groupBy : forall charges (m m' : JSMap.t (Bucket.t num)),
  forEachCharge LocalTZA groupBy charges m = inr m' ->
  Forall (fun c => exists k, periodKey LocalTZA groupBy c = inr k) charges.
Proof.
  induction charges as [|c cs IH]; intros m m' Hrun; [constructor|].
  cbn [forEachCharge] in Hrun. unfold bind at 1 in Hrun.
  destruct (addCharge LocalTZA groupBy m c) as [e|m1] eqn:Hadd; [discriminate|].
  constructor; [|eapply IH; exact Hrun].
  unfold addCharge, bind in Hadd.
  destruct (periodKey LocalTZA groupBy c) as [e|k]; [discriminate|]. now exists k.
Qed.

Lemma groupChargesByPeriod_keys charges groupBy (periodData : list (PeriodDatum.t num)) :
  groupChargesByPeriod LocalTZA localeCompare charges groupBy = inr periodData ->
  Forall (fun c => exists k, periodKey LocalTZA groupBy c = inr k) charges.
Proof.
  intros Hrun. destruct (groupChargesByPeriod_inr _ _ _ _ _ Hrun) as (m & Hm & _).
  eapply forEachCharge_keys. exact Hm.
Qed.

(** The charges of a bucket are those of a class [f] when [f] holds of
    exactly the charges with the bucket's key. *)
Lemma bucketCharges_filter groupBy charges k (f : Charge.t -> bool) :
  Forall (fun c => exists kc, periodKey LocalTZA groupBy c = inr kc) charges ->
  (forall c kc, In c charges -> periodKey LocalTZA groupBy c = inr kc ->
                (f c = true <-> kc = k)) ->
  bucketCharges LocalTZA groupBy k charges = filter f charges.
Proof.
  intros Hkeys Hf. unfold bucketCharges. apply filter_ext_in. intros c Hc.
  rewrite Forall_forall in Hkeys. destruct (Hkeys c Hc) as (kc & Hkc).
  unfold inPeriod. rewrite Hkc. specialize (Hf c kc Hc Hkc).
  destruct (String.eqb_spec k kc) as [->|Hne], (f c); try reflexivity.
  - destruct Hf as [_ Hf]. specialize (Hf eq_refl). discriminate.
  - destruct Hf as [Hf _]. specialize (Hf eq_refl). congruence.
Qed.

Lemma periodKey_day charge k :
  periodKey LocalTZA day charge = inr k ->
  JSDate.toISODate (Some (Charge.created charge * 1000)) = Some k.
Proof.
  unfold periodKey. rewrite ofNumber_valid.
  destruct (validTime charge); cbn [JSDate.toISODate]; intros Hk;
    inversion Hk; reflexivity.
Qed.

(** X15. Grouped by day, every bucket holds exactly the charges of one UTC
    day, whatever the time zone of the host: its label is the ISO date of
    that day, its count the number of the charges created on that day, its
    revenue their running total rounded to cents. *)
Theorem groupChargesByPeriod_day_buckets
    (charges : list Charge.t) (periodData : list (PeriodDatum.t num))
    (Hrun : groupChargesByPeriod LocalTZA localeCompare charges day = inr periodData) :
  Forall (fun d =>
            exists D,
              let sameDay := filter (fun c => utcDay c =? D) charges in
              JSDate.toISODate (Some (D * JSDate.msPerDay)) = Some (PeriodDatum.period d)
              /\ PeriodDatum.transactionCount d = Z.of_nat (List.length sameDay)
              /\ PeriodDatum.revenue d
                 = (Math_round (accumulate sameDay * ofZ 100) / ofZ 100)%num)
         periodData.
Proof.
  apply Forall_forall. intros d Hd.
  pose proof (groupChargesByPeriod_keys _ _ _ Hrun) as Hkeys.
  destruct (groupChargesByPeriod_bucket _ _ _ _ _ _ Hrun Hd) as (Hne & Hrev & Hcnt).
  destruct (bucketCharges LocalTZA day (PeriodDatum.period d) charges)
    as [|c0 rest] eqn:Hbucket; [contradiction|]. clear Hne.
  assert (Hc0 : In c0 (bucketCharges LocalTZA day (PeriodDatum.period d) charges))
    by (rewrite Hbucket; now left).
  apply filter_In in Hc0 as (Hin0 & Hk0). unfold inPeriod in Hk0.
  destruct (periodKey LocalTZA day c0) as [e|k0] eqn:Hkey0; [discriminate|].
  apply String.eqb_eq in Hk0. subst k0. apply periodKey_day in Hkey0.
  exists (utcDay c0). cbv zeta.
  assert (Hsame : bucketCharges LocalTZA day (PeriodDatum.period d) charges
                  = filter (fun c => utcDay c =? utcDay c0) charges).
  { apply bucketCharges_filter; [exact Hkeys|].
    intros c kc Hc Hkc. apply periodKey_day in Hkc. rewrite Z.eqb_eq. split.
    - intros Hday. apply toISODate_Day in Hday. congruence.
    - intros ->. apply toISODate_inj. congruence. }
  rewrite <- Hsame, Hbucket. repeat apply conj; [|exact Hcnt|exact Hrev].
  rewrite <- Hkey0. apply toISODate_Day.
  unfold utcDay, JSDate.Day. apply Z.div_mul. discriminate.
Qed.

End Buckets.

Lemma periodKey_week_utc charge k :
  periodKey utcHost week charge = inr k ->
  JSDate.toISODate (Some ((7 * sundayWeek charge - 3) * JSDate.msPerDay)) = Some k.
Proof.
  intros Hkey.
  destruct (validTime charge) eqn:Hvalid;
    [|rewrite (periodKey_invalid utcHost week charge Hvalid) in Hkey; discriminate].
  unfold validTime in Hvalid. apply Z.leb_le in Hvalid.
  rewrite (weekKey_utc charge Hvalid) in Hkey.
  set (t := Charge.created charge * 1000) in *.
  unfold JSDate.TimeClip in Hkey.
  destruct (Z.abs (t + (1 - JSDate.WeekDay t) * JSDate.msPerDay) >? 8640000000000000);
    [discriminate|].
  destruct (JSDate.toISODate (Some (t + (1 - JSDate.WeekDay t) * JSDate.msPerDay)))
    as [s|] eqn:Hs; [|discriminate].
  inversion Hkey; subst s. rewrite <- Hs. apply toISODate_Day.
  rewrite Day_shift. unfold JSDate.Day at 1. rewrite Z.div_mul by discriminate.
  unfold sundayWeek, utcDay, JSDate.WeekDay. fold t.
  pose proof (Z.div_mod (JSDate.Day t + 4) 7 ltac:(lia)). lia.
Qed.

Section WeekBuckets.

Context {num : Type} `{Number num}.
Variable localeCompare : string -> string -> comparison.

(** X16. On a host whose local time is UTC, grouped by week, every bucket
    holds exactly the charges of one week running from Sunday to Saturday;
    its label is the ISO date of the Monday of that week. *)
Theorem groupChargesByPeriod_week_buckets
    (charges : list Charge.t) (periodData : list (PeriodDatum.t num))
    (Hrun : groupChargesByPeriod utcHost localeCompare charges week = inr periodData) :
  Forall (fun d =>
            exists W,
              let monday := (7 * W - 3) * JSDate.msPerDay in
              let sameWeek := filter (fun c => sundayWeek c =? W) charges in
              JSDate.toISODate (Some monday) = Some (PeriodDatum.period d)
              /\ JSDate.WeekDay monday = 1
              /\ PeriodDatum.transactionCount d = Z.of_nat (List.length sameWeek)
              /\ PeriodDatum.revenue d
                 = (Math_round (accumulate sameWeek * ofZ 100) / ofZ 100)%num)
         periodData.
Proof.
  apply Forall_forall. intros d Hd.
  pose proof (groupChargesByPeriod_keys _ _ _ _ _ Hrun) as Hkeys.
  destruct (groupChargesByPeriod_bucket _ _ _ _ _ _ Hrun Hd) as (Hne & Hrev & Hcnt).
  destruct (bucketCharges utcHost week (PeriodDatum.period d) charges)
    as [|c0 rest] eqn:Hbucket; [contradiction|]. clear Hne.
  assert (Hc0 : In c0 (bucketCharges utcHost week (PeriodDatum.period d) charges))
    by (rewrite Hbucket; now left).
  apply filter_In in Hc0 as (Hin0 & Hk0). unfold inPeriod in Hk0.
  destruct (periodKey utcHost week c0) as [e|k0] eqn:Hkey0; [discriminate|].
  apply String.eqb_eq in Hk0. subst k0. apply periodKey_week_utc in Hkey0.
  exists (sundayWeek c0). cbv zeta.
  assert (Hsame : bucketCharges utcHost week (PeriodDatum.period d) charges
                  = filter (fun c => sundayWeek c =? sundayWeek c0) charges).
  { apply bucketCharges_filter; [exact Hkeys|].
    intros c kc Hc Hkc. apply periodKey_week_utc in Hkc. rewrite Z.eqb_eq. split.
    - intros Hweek. rewrite Hweek in Hkc. congruence.
    - intros ->. rewrite <- Hkey0 in Hkc. apply toISODate_inj in Hkc.
      unfold JSDate.Day in Hkc. rewrite !Z.div_mul in Hkc by discriminate. lia. }
  rewrite <- Hsame, Hbucket. repeat apply conj; [exact Hkey0| |exact Hcnt|exact Hrev].
  unfold JSDate.WeekDay, JSDate.Day. rewrite Z.div_mul by discriminate.
  replace (7 * sundayWeek c0 - 3 + 4) with (1 + sundayWeek c0 * 7) by ring.
  rewrite Z.mod_add by discriminate. reflexivity.
Qed.

End WeekBuckets.

(** ** Months *)

(** The month of a charge in the host's local time, [None] for a creation
    time out of range. *)
Definition localMonth (LocalTZA : Z -> bool -> Z) (charge : Charge.t) : option (Z * Z) :=
  if validTime charge
  then let t := JSDate.LocalTime LocalTZA (Charge.created charge * 1000) in
       Some (JSDate.YearFromTime t, JSDate.MonthFromTime t)
  else None.

Definition sameMonth (a b : option (Z * Z)) : bool :=
  match a, b with
  | Some (y1, m1), Some (y2, m2) => (y1 =? y2) && (m1 =? m2)
  | None, None => true
  | _, _ => false
  end.

Definition monthLabel (month : option (Z * Z)) : string :=
  match month with
  | Some (y, m) => JSString.ofZ y +++ "-" +++ JSString.padStart0 2 (JSString.ofZ (m + 1))
  | None => "NaN-NaN"
  end.

Lemma sameMonth_eq a b : sameMonth a b = true <-> a = b.
Proof.
  destruct a as [[y1 m1]|], b as [[y2 m2]|]; cbn; split; intros Heq;
    try discriminate; try reflexivity.
  - apply andb_prop in Heq as (Hy & Hm). apply Z.eqb_eq in Hy, Hm. now subst.
  - inversion Heq; subst. now rewrite !Z.eqb_refl.
Qed.

Lemma ofZ_first (z : Z) :
  exists c s, JSString.ofZ z = String c s /\ c <> "N"%char.
Proof.
  destruct z as [|p|p]; cbn [JSString.ofZ String.append].
  - eexists; eexists; split; [reflexivity|discriminate].
  - pose proof (DecimalPos.Unsigned.to_uint_nonnil p) as Hnn.
    destruct (Pos.to_uint p); [contradiction| | | | | | | | | |]; cbn;
      eexists; eexists; (split; [reflexivity|discriminate]).
  - eexists; eexists; split; [reflexivity|discriminate].
Qed.

Lemma monthLabel_inj a b :
  (forall y m, a = Some (y, m) -> 0 <= m <= 11) ->
  (forall y m, b = Some (y, m) -> 0 <= m <= 11) ->
  monthLabel a = monthLabel b -> a = b.
Proof.
  intros Ha Hb. destruct a as [[y1 m1]|], b as [[y2 m2]|]; cbn [monthLabel];
    intros Heq.
  - specialize (Ha _ _ eq_refl). specialize (Hb _ _ eq_refl).
    apply append_inj_tail in Heq as (Hy & Heq).
    2:{ cbn [String.append String.length]. rewrite !pad2_length by lia. reflexivity. }
    apply ofZ_inj in Hy. cbn [String.append] in Heq. injection Heq as Hm.
    apply padStart0_inj in Hm; [|lia|lia].
    f_equal. f_equal; lia.
  - destruct (ofZ_first y1) as (c & s & Hc & Hn). rewrite Hc in Heq.
    cbn [String.append] in Heq. injection Heq as -> _. contradiction.
  - destruct (ofZ_first y2) as (c & s & Hc & Hn). rewrite Hc in Heq.
    cbn [String.append] in Heq. injection Heq as <- _. contradiction.
  - reflexivity.
Qed.

Section MonthBuckets.

Context {num : Type} `{Number num}.
Variable LocalTZA : Z -> bool -> Z.
Variable localeCompare : string -> string -> comparison.

Lemma periodKey_month charge :
  periodKey LocalTZA month charge = inr (monthLabel (localMonth LocalTZA charge)).
Proof.
  unfold periodKey, localMonth. rewrite ofNumber_valid.
  destruct (validTime charge); reflexivity.
Qed.

Lemma localMonth_range charge y m :
  localMonth LocalTZA charge = Some (y, m) -> 0 <= m <= 11.
Proof.
  unfold localMonth. destruct (validTime charge); [|discriminate].
  intros Heq. inversion Heq. apply MonthFromTime_range.
Qed.

(** X17. Grouped by month, every bucket holds exactly the charges of one
    month of one year in the local time of the host, under the label
    [year-MM]; the charges whose creation time is out of the range of dates
    are the bucket labelled NaN-NaN. *)
Theorem groupChargesByPeriod_month_buckets
    (charges : list Charge.t) (periodData : list (PeriodDatum.t num))
    (Hrun : groupChargesByPeriod LocalTZA localeCompare charges month = inr periodData) :
  Forall (fun d =>
            exists M,
              let sameMonthCharges :=
                filter (fun c => sameMonth (localMonth LocalTZA c) M) charges in
              PeriodDatum.period d = monthLabel M
              /\ PeriodDatum.transactionCount d
                 = Z.of_nat (List.length sameMonthCharges)
              /\ PeriodDatum.revenue d
                 = (Math_round (accumulate sameMonthCharges * ofZ 100) / ofZ 100)%num)
         periodData.
Proof.
  apply Forall_forall. intros d Hd.
  pose proof (groupChargesByPeriod_keys _ _ _ _ _ Hrun) as Hkeys.
  destruct (groupChargesByPeriod_bucket _ _ _ _ _ _ Hrun Hd) as (Hne & Hrev & Hcnt).
  destruct (bucketCharges LocalTZA month (PeriodDatum.period d) charges)
    as [|c0 rest] eqn:Hbucket; [contradiction|]. clear Hne.
  assert (Hc0 : In c0 (bucketCharges LocalTZA month (PeriodDatum.period d) charges))
    by (rewrite Hbucket; now left).
  apply filter_In in Hc0 as (Hin0 & Hk0). unfold inPeriod in Hk0.
  rewrite periodKey_month in Hk0. apply String.eqb_eq in Hk0.
  exists (localMonth LocalTZA c0). cbv zeta.
  assert (Hsame : bucketCharges LocalTZA month (PeriodDatum.period d) charges
                  = filter (fun c => sameMonth (localMonth LocalTZA c)
                                       (localMonth LocalTZA c0)) charges).
  { apply bucketCharges_filter; [exact Hkeys|].
    intros c kc Hc Hkc. rewrite periodKey_month in Hkc. inversion Hkc; subst kc.
    rewrite sameMonth_eq, Hk0. split.
    - now intros ->.
    - apply monthLabel_inj; intros y m; apply localMonth_range. }
  rewrite <- Hsame, Hbucket. repeat apply conj; [exact Hk0|exact Hcnt|exact Hrev].
Qed.

End MonthBuckets.

(** * [currentDatetime], the version that reads the host's clock and zone *)

Module Datetime.
Record t : Type := {
  date : string;
  time : string;
  weekday : option string        (** [None] is [undefined] *)
}.
End Datetime.

Definition HourFromTime (t : Z) : Z := (t / 3600000) mod 24.
Definition MinFromTime (t : Z) : Z := (t / 60000) mod 60.
Definition SecFromTime (t : Z) : Z := (t / 1000) mod 60.

Section CurrentDatetime.

Variable LocalTZA : Z -> bool -> Z.

Definition weekdays : list string :=
  ["Sunday"; "Monday"; "Tuesday"; "Wednesday"; "Thursday"; "Friday"; "Saturday"].

(** [now.toTimeString().split(" ")[0]]: the local time of day. *)
Definition toTimeOfDay (t : Z) : string :=
  let local := JSDate.LocalTime LocalTZA t in
  JSString.padStart0 2 (JSString.ofZ (HourFromTime local)) +++ ":"
  +++ JSString.padStart0 2 (JSString.ofZ (MinFromTime local)) +++ ":"
  +++ JSString.padStart0 2 (JSString.ofZ (SecFromTime local)).

(** [now] is the time value of [new Date()]. *)
Definition currentDatetime (now : Z) : Result Datetime.t :=
  match JSDate.toISODate (Some now) with
  | None => throw invalidTimeValue
  | Some date =>
      let time := toTimeOfDay now in
      let weekday :=
        match JSDate.getDay LocalTZA (Some now) with
        | Some w => nth_error weekdays (Z.to_nat w)
        | None => None
        end in
      ret {| Datetime.date := date;
             Datetime.time := time;
             Datetime.weekday := weekday |}
  end.

(** The day of the week of a day, by name. *)
Definition weekdayOfDay (d : Z) : option string :=
  nth_error weekdays (Z.to_nat ((d + 4) mod 7)).

Lemma weekdayOfDay_Some d : exists name, weekdayOfDay d = Some name.
Proof.
  unfold weekdayOfDay.
  destruct (nth_error weekdays (Z.to_nat ((d + 4) mod 7))) as [name|] eqn:Hn;
    [now exists name|].
  apply nth_error_None in Hn. cbn [weekdays List.length] in Hn.
  pose proof (Z.mod_pos_bound (d + 4) 7 ltac:(lia)). lia.
Qed.

Lemma weekdayOfDay_inj d1 d2 :
  weekdayOfDay d1 = weekdayOfDay d2 <-> (d1 - d2) mod 7 = 0.
Proof.
  unfold weekdayOfDay.
  pose proof (Z.mod_pos_bound (d1 + 4) 7 ltac:(lia)) as H1.
  pose proof (Z.mod_pos_bound (d2 + 4) 7 ltac:(lia)) as H2.
  assert (Hnd : NoDup weekdays)
    by (repeat constructor; cbn; intuition discriminate).
  split.
  - intros Heq.
    assert (Hi : Z.to_nat ((d1 + 4) mod 7) = Z.to_nat ((d2 + 4) mod 7)).
    { apply (proj1 (NoDup_nth_error weekdays) Hnd); [cbn; lia|exact Heq]. }
    apply Z2Nat.inj in Hi; [|lia|lia].
    revert Hi. clear. Z.div_mod_to_equations. lia.
  - intros Hmod. replace ((d1 + 4) mod 7) with ((d2 + 4) mod 7); [reflexivity|].
    revert Hmod. clear. Z.div_mod_to_equations. lia.
Qed.

(** X18. [currentDatetime] returns for every clock value; the date is the
    UTC calendar date while the weekday is read in the host's local time, so
    the weekday is the day of the week of the reported date exactly when
    the local day and the UTC day are a whole number of weeks apart (with a
    zone offset of less than a day: when they are the same day). *)
Theorem currentDatetime_weekday (now : Z) :
  exists date name,
    currentDatetime now
    = inr {| Datetime.date := date;
             Datetime.time := toTimeOfDay now;
             Datetime.weekday := Some name |}
    /\ JSDate.toISODate (Some now) = Some date
    /\ Some name = weekdayOfDay (JSDate.Day (JSDate.LocalTime LocalTZA now))
    /\ (Some name = weekdayOfDay (JSDate.Day now)
        <-> (JSDate.Day (JSDate.LocalTime LocalTZA now) - JSDate.Day now) mod 7 = 0).
Proof.
  destruct (weekdayOfDay_Some (JSDate.Day (JSDate.LocalTime LocalTZA now)))
    as (name & Hname).
  unfold currentDatetime. cbn [JSDate.toISODate JSDate.getDay option_map].
  eexists. exists name. split; [|split; [|split]].
  - unfold JSDate.WeekDay. unfold weekdayOfDay in Hname. rewrite Hname. reflexivity.
  - reflexivity.
  - now rewrite Hname.
  - rewrite <- Hname. apply weekdayOfDay_inj.
Qed.

End CurrentDatetime.

(** A host eight hours behind UTC. *)
Definition pacificStandard : Z -> bool -> Z := fun _ _ => -28800000.

(** At 2024-01-08 02:00:00 UTC the date is Monday's, the weekday Sunday. *)
Example currentDatetime_disagrees :
  currentDatetime pacificStandard 1704679200000
  = inr {| Datetime.date := "2024-01-08";
           Datetime.time := "18:00:00";
           Datetime.weekday := Some "Sunday" |}
  /\ weekdayOfDay (JSDate.Day 1704679200000) = Some "Monday".
Proof. split; vm_compute; reflexivity. Qed.

(** ** The buckets at concrete inputs *)

Lemma groupChargesByPeriod_day_buckets_witness :
  Forall (fun d =>
            exists D,
              let sameDay := filter (fun c => utcDay c =? D) threeDays in
              JSDate.toISODate (Some (D * JSDate.msPerDay)) = Some (PeriodDatum.period d)
              /\ PeriodDatum.transactionCount d = Z.of_nat (List.length sameDay)
              /\ PeriodDatum.revenue d
                 = (Math_round (accumulate sameDay * ofZ 100) / ofZ 100)%num)
         threeDaysBuckets.
Proof.
  apply (groupChargesByPeriod_day_buckets (num := float) utcHost codeUnitCompare
           threeDays threeDaysBuckets).
  vm_compute. reflexivity.
Defined.

(** A Saturday, the Sunday after it and the Monday after that. *)
Definition weekendCharges : list Charge.t :=
  [{| Charge.id := "ch_sat"; Charge.amount := 100;
      Charge.created := 1704542400; Charge.status := "succeeded" |};
   sundayCharge;
   {| Charge.id := "ch_mon"; Charge.amount := 300;
      Charge.created := 1704715200; Charge.status := "succeeded" |}].

Definition weekendBuckets : list (PeriodDatum.t float) :=
  match groupChargesByPeriod utcHost codeUnitCompare weekendCharges week with
  | inr periodData => periodData
  | inl _ => []
  end.

Lemma groupChargesByPeriod_week_buckets_witness :
  map (fun d => (PeriodDatum.period d, PeriodDatum.transactionCount d)) weekendBuckets
  = [("2024-01-01", 1); ("2024-01-08", 2)]
  /\ Forall (fun d =>
               exists W,
                 let monday := (7 * W - 3) * JSDate.msPerDay in
                 let sameWeek := filter (fun c => sundayWeek c =? W) weekendCharges in
                 JSDate.toISODate (Some monday) = Some (PeriodDatum.period d)
                 /\ JSDate.WeekDay monday = 1
                 /\ PeriodDatum.transactionCount d = Z.of_nat (List.length sameWeek)
                 /\ PeriodDatum.revenue d
                    = (Math_round (accumulate sameWeek * ofZ 100) / ofZ 100)%num)
            weekendBuckets.
Proof.
  split; [vm_compute; reflexivity|].
  apply (groupChargesByPeriod_week_buckets (num := float) codeUnitCompare
           weekendCharges weekendBuckets).
  vm_compute. reflexivity.
Defined.

(** The weekend's charges and one whose creation time is out of range. *)
Definition monthCharges : list Charge.t :=
  weekendCharges
  ++ [{| Charge.id := "ch_far"; Charge.amount := 50;
         Charge.created := 8640000000001; Charge.status := "succeeded" |}].

Definition monthBuckets : list (PeriodDatum.t float) :=
  match groupChargesByPeriod pacificStandard codeUnitCompare monthCharges month with
  | inr periodData => periodData
  | inl _ => []
  end.

Lemma groupChargesByPeriod_month_buckets_witness :
  map (fun d => (PeriodDatum.period d, PeriodDatum.transactionCount d)) monthBuckets
  = [("2024-01", 3); ("NaN-NaN", 1)]
  /\ Forall (fun d =>
               exists M,
                 let sameMonthCharges :=
                   filter (fun c => sameMonth (localMonth pacificStandard c) M)
                     monthCharges in
                 PeriodDatum.period d = monthLabel M
                 /\ PeriodDatum.transactionCount d
                    = Z.of_nat (List.length sameMonthCharges)
                 /\ PeriodDatum.revenue d
                    = (Math_round (accumulate sameMonthCharges * ofZ 100) / ofZ 100)%num)
            monthBuckets.
Proof.
  split; [vm_compute; reflexivity|].
  apply (groupChargesByPeriod_month_buckets (num := float) pacificStandard
           codeUnitCompare monthCharges monthBuckets).
  vm_compute. reflexivity.
Defined.

(** ** The order of the charges *)





Section OrderOfCharges.

Context {num : Type} `{Number num}.
Variable LocalTZA : Z -> bool -> Z.
Variable localeCompare : string -> string -> comparison.





End OrderOfCharges.


(** ** The insights and the summary *)

Section InsightsOfSummary.

Context {num : Type} `{Number num}.
Variable LocalTZA : Z -> bool -> Z.
Variable localeCompare : string -> string -> comparison.

(** X20. The insights agree with the summary: with at least one retained
    charge, the insights end with the average line for
    [totalRevenue / number of buckets] and the count line for
    [summary.transactionCount], after one line (one bucket) or two (more
    buckets) on the extreme periods. *)
Theorem insights_agree_with_summary
    (charges : list Charge.t) (groupBy : GroupBy) (payload : RevenueTrends.t num)
    (Hnonempty : charges <> [])
    (Hrun : summarize LocalTZA localeCompare charges groupBy = inr payload) :
  exists extremes,
    RevenueTrends.insights payload
    = extremes
      ++ [averageLine
            (Summary.totalRevenue (RevenueTrends.summary payload)
             / ofZ (Z.of_nat (List.length (RevenueTrends.periodData payload))))%num;
          countLine (Summary.transactionCount (RevenueTrends.summary payload))]
    /\ List.length extremes
       = (if (2 <=? List.length (RevenueTrends.periodData payload))%nat
          then 2%nat else 1%nat)
    /\ RevenueTrends.periodData payload <> [].
Proof.
  destruct (summarize_inr _ _ _ _ _ Hrun)
    as (periodData & Hgroup & Hdata & _ & Hcount & _ & Hinsights).
  rewrite Hdata, Hinsights, Hcount.
  pose proof (groupChargesByPeriod_count _ _ _ _ _ Hgroup) as Hsum.
  assert (Hlen : (1 <= List.length periodData)%nat).
  { destruct periodData; [|cbn; lia].
    cbn in Hsum. destruct charges; [contradiction|discriminate]. }
  exists (bestPart periodData ++ worstPart periodData).
  split; [|split].
  - unfold expectedInsights, countPart, averagePerPeriod, totalTransactions.
    rewrite Hsum.
    replace (0 <? Z.of_nat (List.length charges)) with true
      by (symmetry; apply Z.ltb_lt; destruct charges; [contradiction|cbn; lia]).
    replace (1 <=? List.length periodData)%nat with true
      by (symmetry; now apply Nat.leb_le).
    now rewrite <- !app_assoc.
  - rewrite length_app, bestPart_length, worstPart_length.
    replace (1 <=? List.length periodData)%nat with true
      by (symmetry; now apply Nat.leb_le).
    destruct (2 <=? List.length periodData)%nat; reflexivity.
  - destruct periodData; [cbn in Hlen; lia|discriminate].
Qed.

End InsightsOfSummary.

(** ** Order and insights at concrete inputs *)


Lemma insights_agree_with_summary_witness :
  exists extremes,
    RevenueTrends.insights examplePayload
    = extremes
      ++ [averageLine
            (Summary.totalRevenue (RevenueTrends.summary examplePayload)
             / ofZ (Z.of_nat (List.length (RevenueTrends.periodData examplePayload))))%num;
          countLine (Summary.transactionCount (RevenueTrends.summary examplePayload))]
    /\ List.length extremes
       = (if (2 <=? List.length (RevenueTrends.periodData examplePayload))%nat
          then 2%nat else 1%nat)
    /\ RevenueTrends.periodData examplePayload <> [].
Proof.
  apply (insights_agree_with_summary utcHost codeUnitCompare exampleCharges day
           examplePayload).
  - discriminate.
  - vm_compute. reflexivity.
Defined.
